(** * CertisGroup: the ROI sandbox of [app.py]

    A shallow embedding of the three pieces of logic of [app.py]:
    - [compute_roi] (lines 17-57), the didactic ROI model;
    - [load_markdown] (lines 60-65), the guarded file read;
    - the sensitivity loop (lines 192-215), which re-runs [compute_roi]
      over a range of lever values.

    Number model.  Two readings of the script's numbers are kept.
    [compute_roi], the sensitivity loop and the sidebar are embedded on
    exact rationals ([Q]), the reading in which the formulas are
    written; results there are compared with [==], and the properties
    stated there are of the kind rounding does not break: which branch
    a guard takes, which entries a row holds, how the rows are ordered.
    Module [Py] embeds [compute_roi] once more on the numbers the
    interpreter computes with, unbounded integers and IEEE doubles,
    with the conversions of mixed operations and their [OverflowError];
    what the code returns digit for digit is stated there.  In both,
    true division by a zero divisor raises. *)

From Stdlib Require Import ZArith QArith Qfield Lqa Lia List String Bool.
From Stdlib Require Import Sorted.
From Stdlib Require Import Floats.
From Stdlib Require Import Ascii.
Import ListNotations.

Local Open Scope Q_scope.

(** ** Exceptions and the error monad *)

Inductive exn : Type :=
| ZeroDivisionError
| OverflowError
| OSError
| UnicodeDecodeError.

Inductive Res (X : Type) : Type :=
| Raise (e : exn)
| Return (x : X).

Arguments Raise {X} e.
Arguments Return {X} x.

Definition bind {X Y : Type} (c : Res X) (k : X -> Res Y) : Res Y :=
  match c with
  | Raise e => Raise e
  | Return x => k x
  end.

Notation "x <- c ;; k" := (bind c (fun x => k))
  (at level 61, c at next level, right associativity).

(** [returns c P]: the call [c] comes back with a value, and the value
    satisfies [P]. *)
Definition returns {X : Type} (c : Res X) (P : X -> Prop) : Prop :=
  exists x, c = Return x /\ P x.

(** A [for] loop that appends one computed item per element: the first
    exception leaves the loop. *)
Fixpoint for_each {X Y : Type} (f : X -> Res Y) (l : list X) : Res (list Y) :=
  match l with
  | [] => Return []
  | x :: l' =>
      y <- f x ;;
      ys <- for_each f l' ;;
      Return (y :: ys)
  end.

(** ** Python arithmetic on rationals *)

(** [a < b] as a test. *)
Definition Qlt_bool (a b : Q) : bool := negb (Qle_bool b a).

(** Truth value of a number in [if x]: anything but zero. *)
Definition truthy (x : Q) : bool := negb (Qeq_bool x 0).

(** [a / b]: raises on a zero divisor. *)
Definition truediv (a b : Q) : Res Q :=
  if Qeq_bool b 0 then Raise ZeroDivisionError else Return (a / b).

(** The builtin [max(a, b)]: keeps [a] unless [b > a]. *)
Definition py_max (a b : Q) : Q := if Qlt_bool a b then b else a.

(** ** Dictionaries

    A [dict] keeps its keys in insertion order (the order of the CSV
    header); a store to a present key overwrites in place. *)

Definition dict : Type := list (string * Q).

Fixpoint dict_get (k : string) (d : dict) : option Q :=
  match d with
  | [] => None
  | (k', v) :: d' => if String.eqb k k' then Some v else dict_get k d'
  end.

Fixpoint dict_set (k : string) (v : Q) (d : dict) : dict :=
  match d with
  | [] => [(k, v)]
  | (k', v') :: d' =>
      if String.eqb k k' then (k', v) :: d' else (k', v') :: dict_set k v d'
  end.

(** ** [compute_roi] *)

(** The local variables of [compute_roi] when it reaches [return]. *)
Record locals : Type := mkLocals {
  annual_ops_cost : Q;
  labor_share : Q;
  manpower_reduction : Q;
  productivity_gain : Q;
  platform_cost : Q;
  labor_cost : Q;
  non_labor : Q;
  labor_savings : Q;
  new_ops_cost : Q;
  savings : Q;
  roi : Q;
  payback_months : Q;
  throughput_effect : Q
}.

(** Lines 31-43: the assignments, in order. *)
Definition compute_roi_body
    (annual_ops_cost labor_share manpower_reduction productivity_gain
       platform_cost : Q) : Res locals :=
  let labor_cost := annual_ops_cost * labor_share in
  let non_labor := annual_ops_cost * (1 - labor_share) in
  let labor_savings := labor_cost * manpower_reduction in
  let new_ops_cost := (labor_cost - labor_savings) + non_labor + platform_cost in
  let savings := annual_ops_cost - new_ops_cost in
  roi <- (if truthy platform_cost
          then truediv savings platform_cost
          else Return 0) ;;
  payback_months <- (if Qlt_bool 0 platform_cost
                     then q <- truediv platform_cost (py_max savings 1) ;;
                          Return (12 * q)
                     else Return 0) ;;
  let throughput_effect := 1 + productivity_gain in
  Return (mkLocals annual_ops_cost labor_share manpower_reduction
            productivity_gain platform_cost labor_cost non_labor
            labor_savings new_ops_cost savings roi payback_months
            throughput_effect).

(** Lines 45-56: the dictionary literal. *)
Definition results (f : locals) : dict :=
  [ ("Baseline cost"%string, annual_ops_cost f);
    ("New cost"%string, new_ops_cost f);
    ("Savings"%string, savings f);
    ("Platform cost"%string, platform_cost f);
    ("ROI (Savings / Platform)"%string, roi f);
    ("Payback (months)"%string, payback_months f);
    ("Labor share"%string, labor_share f);
    ("Manpower reduction (%)"%string, manpower_reduction f);
    ("Productivity gain (%)"%string, productivity_gain f);
    ("Throughput multiplier (1+prod)"%string, throughput_effect f) ].

Definition compute_roi
    (annual_ops_cost labor_share manpower_reduction productivity_gain
       platform_cost : Q) : Res dict :=
  f <- compute_roi_body annual_ops_cost labor_share manpower_reduction
         productivity_gain platform_cost ;;
  Return (results f).

(** ** The sensitivity loop *)

(** [max(1, s)] on integers. *)
Definition py_max_int (a b : Z) : Z := if (a <? b)%Z then b else a.

(** [int(a / b)] for integers [a], [b]: the quotient is truncated
    toward zero; a zero divisor raises.  For [a = 40] the float quotient
    truncates to the same integer as the exact one: a non-integer
    quotient lies at least [1/40] away from every integer. *)
Definition int_truediv (a b : Z) : Res Z :=
  if (b =? 0)%Z then Raise ZeroDivisionError else Return (Z.quot a b).

(** [max(1, int(40/(steps-1)))] *)
Definition stride (steps : Z) : Res Z :=
  q <- int_truediv 40 (steps - 1) ;;
  Return (py_max_int 1 q).

(** [list(range(start, stop, step))] for a positive [step]: item [i] is
    [start + i * step], and there are [(stop - start - 1) / step + 1] items
    when [start < stop], none otherwise. *)
Definition range_len (start stop step : Z) : nat :=
  if (start <? stop)%Z then Z.to_nat ((stop - start - 1) / step + 1) else 0%nat.

Definition py_range (start stop step : Z) : list Z :=
  map (fun i => (start + Z.of_nat i * step)%Z)
      (seq 0 (range_len start stop step)).

(** [i / 100] for an integer [i]; the divisor is a non-zero literal. *)
Definition percent (i : Z) : Q := inject_Z i / 100.

(** [[i / 100 for i in list(range(0, 41, max(1, int(40/(steps-1)))))]] *)
Definition xs (steps : Z) : Res (list Q) :=
  s <- stride steps ;;
  Return (map percent (py_range 0 41 s)).

(** Lines 192-199 and 205-210: [rows] after the loop.  [opt] is the
    selected lever; the five scenario values are the sidebar inputs. *)
Definition sweep
    (annual_ops_cost labor_share manpower_reduction productivity_gain
       platform_cost : Q) (opt : string) (steps : Z) : Res (list dict) :=
  if String.eqb opt "Manpower reduction (%)" then
    l <- xs steps ;;
    for_each (fun mcut =>
                r <- compute_roi annual_ops_cost labor_share mcut
                       productivity_gain platform_cost ;;
                Return (dict_set "x" mcut r)) l
  else
    l <- xs steps ;;
    for_each (fun pg =>
                r <- compute_roi annual_ops_cost labor_share
                       manpower_reduction pg platform_cost ;;
                Return (dict_set "x" pg r)) l.

(** The lever value carried by a row: [r["x"]]. *)
Definition lever_of (r : dict) : option Q := dict_get "x" r.

(** ** [load_markdown]

    [resolve] stands for [Path(__file__).parent / relative_path].  The
    file system answers the [stat] call behind [p.exists()] in one of
    three ways. *)

Inductive entry : Type :=
| TextFile (content : string)   (* [read_text] succeeds *)
| Undecodable                   (* the bytes are not UTF-8 *)
| Unreadable.                   (* a directory, or no permission *)

Inductive stat_result : Type :=
| Found (e : entry)
| Missing      (* ENOENT, ENOTDIR, EBADF, ELOOP: [exists()] is [False] *)
| StatError.   (* another OS error, such as a name too long, which
                  [Path.exists] raises again up to Python 3.12 *)

Definition filesystem : Type := string -> stat_result.

Definition load_markdown (resolve : string -> string) (fs : filesystem)
    (relative_path : string) : Res string :=
  let p := resolve relative_path in
  match fs p with
  | StatError => Raise OSError
  | Found (TextFile content) => Return content
  | Found Undecodable => Raise UnicodeDecodeError
  | Found Unreadable => Raise OSError
  | Missing =>
      Return ("> ⚠️ Could not find `" ++ relative_path
                ++ "`. Make sure your repo contains this file.")%string
  end.




(** ** Python numbers

    The same function on the values the interpreter computes with:
    unbounded integers and IEEE doubles.  A mixed operation converts
    its integer operand to a double first, and that conversion raises
    [OverflowError] when the integer is out of range; comparisons
    between an integer and a double are exact. *)

Module Py.

Inductive num : Type :=
| Int (z : Z)
| Float (f : float).

(** The double nearest to [m * 2^e], ties to even; out of range is an
    [OverflowError]. *)
Definition round_to_double (m e : Z) (negative_zero : bool) : Res float :=
  match binary_normalize prec emax m e negative_zero with
  | S754_infinity _ => Raise OverflowError
  | sf => Return (SF2Prim sf)
  end.

(** [float(z)] as the mixed operations apply it. *)
Definition float_of_int (z : Z) : Res float := round_to_double z 0 false.

(** [a / b] on two integers, [b] not zero: the double nearest to the
    exact quotient.  The quotient is cut 1100 bits below its unit and a
    last bit records a non-zero remainder, which rounds as the exact
    quotient does. *)
Definition int_true_divide (a b : Z) : Res float :=
  let negate := xorb (a <? 0)%Z (b <? 0)%Z in
  let k := (Z.log2 (Z.abs b) + 1100)%Z in
  let (q, r) := Z.div_eucl (Z.abs a * 2 ^ k) (Z.abs b) in
  let m := (2 * q + (if (r =? 0)%Z then 0 else 1))%Z in
  round_to_double (if negate then (- m)%Z else m) (- k - 1) negate.

Definition as_float (x : num) : Res float :=
  match x with
  | Int z => float_of_int z
  | Float f => Return f
  end.

(** [f == 0.0]: true of both zeros, false of NaN. *)
Definition float_is_zero (f : float) : bool :=
  match Prim2SF f with
  | S754_zero _ => true
  | _ => false
  end.

(** The order between an integer and a double, on their exact values;
    [None] when the double is NaN. *)
Definition compare_int_float (z : Z) (f : float) : option comparison :=
  match Prim2SF f with
  | S754_nan => None
  | S754_infinity true => Some Gt
  | S754_infinity false => Some Lt
  | S754_zero _ => Some (z ?= 0)%Z
  | S754_finite s m e =>
      let v := if s then Zneg m else Zpos m in
      Some (if (0 <=? e)%Z then (z ?= v * 2 ^ e)%Z
            else (z * 2 ^ (- e) ?= v)%Z)
  end.

(** The real number a Python number stands for; none for NaN and the
    infinities. *)
Definition value (x : num) : option Q :=
  match x with
  | Int z => Some (inject_Z z)
  | Float f =>
      match Prim2SF f with
      | S754_zero _ => Some 0
      | S754_finite s m e =>
          let v := inject_Z (if s then Zneg m else Zpos m) in
          Some (if (0 <=? e)%Z then v * inject_Z (2 ^ e)
                else v / inject_Z (2 ^ (- e)))
      | _ => None
      end
  end.

(** [+], [-] and [*]: exact on two integers, on doubles otherwise. *)
Definition arith (iop : Z -> Z -> Z) (fop : float -> float -> float)
    (x y : num) : Res num :=
  match x, y with
  | Int a, Int b => Return (Int (iop a b))
  | _, _ =>
      a <- as_float x ;;
      b <- as_float y ;;
      Return (Float (fop a b))
  end.

Definition add : num -> num -> Res num := arith Z.add PrimFloat.add.
Definition sub : num -> num -> Res num := arith Z.sub PrimFloat.sub.
Definition mul : num -> num -> Res num := arith Z.mul PrimFloat.mul.

(** [x / y]: the operands are converted, then a zero divisor raises. *)
Definition truediv (x y : num) : Res num :=
  match x, y with
  | Int a, Int b =>
      if (b =? 0)%Z then Raise ZeroDivisionError
      else q <- int_true_divide a b ;; Return (Float q)
  | _, _ =>
      a <- as_float x ;;
      b <- as_float y ;;
      if float_is_zero b then Raise ZeroDivisionError
      else Return (Float (PrimFloat.div a b))
  end.

(** [x > y] *)
Definition gt (x y : num) : bool :=
  match x, y with
  | Int a, Int b => (b <? a)%Z
  | Float f, Float g => PrimFloat.ltb g f
  | Int a, Float g =>
      match compare_int_float a g with Some Gt => true | _ => false end
  | Float f, Int b =>
      match compare_int_float b f with Some Lt => true | _ => false end
  end.

(** Truth value in [if x]. *)
Definition truthy (x : num) : bool :=
  match x with
  | Int z => negb (z =? 0)%Z
  | Float f => negb (float_is_zero f)
  end.

(** The builtin [max(a, b)]: keeps [a] unless [b > a]. *)
Definition py_max (a b : num) : num := if gt b a then b else a.

Definition dict : Type := list (string * num).

Fixpoint dict_get (k : string) (d : dict) : option num :=
  match d with
  | [] => None
  | (k', v) :: d' => if String.eqb k k' then Some v else dict_get k d'
  end.

Record locals : Type := mkLocals {
  annual_ops_cost : num;
  labor_share : num;
  manpower_reduction : num;
  productivity_gain : num;
  platform_cost : num;
  labor_cost : num;
  non_labor : num;
  labor_savings : num;
  new_ops_cost : num;
  savings : num;
  roi : num;
  payback_months : num;
  throughput_effect : num
}.

(** Lines 31-43, operation by operation, left to right. *)
Definition compute_roi_body
    (annual_ops_cost labor_share manpower_reduction productivity_gain
       platform_cost : num) : Res locals :=
  labor_cost <- mul annual_ops_cost labor_share ;;
  non_labor <- (t <- sub (Int 1) labor_share ;; mul annual_ops_cost t) ;;
  labor_savings <- mul labor_cost manpower_reduction ;;
  new_ops_cost <- (t <- sub labor_cost labor_savings ;;
                   u <- add t non_labor ;;
                   add u platform_cost) ;;
  savings <- sub annual_ops_cost new_ops_cost ;;
  roi <- (if truthy platform_cost
          then truediv savings platform_cost
          else Return (Float 0)) ;;
  payback_months <- (if gt platform_cost (Int 0)
                     then q <- truediv platform_cost
                                 (py_max savings (Int 1)) ;;
                          mul (Int 12) q
                     else Return (Float 0)) ;;
  throughput_effect <- add (Int 1) productivity_gain ;;
  Return (mkLocals annual_ops_cost labor_share manpower_reduction
            productivity_gain platform_cost labor_cost non_labor
            labor_savings new_ops_cost savings roi payback_months
            throughput_effect).

(** Lines 45-56. *)
Definition results (f : locals) : dict :=
  [ ("Baseline cost"%string, annual_ops_cost f);
    ("New cost"%string, new_ops_cost f);
    ("Savings"%string, savings f);
    ("Platform cost"%string, platform_cost f);
    ("ROI (Savings / Platform)"%string, roi f);
    ("Payback (months)"%string, payback_months f);
    ("Labor share"%string, labor_share f);
    ("Manpower reduction (%)"%string, manpower_reduction f);
    ("Productivity gain (%)"%string, productivity_gain f);
    ("Throughput multiplier (1+prod)"%string, throughput_effect f) ].

Definition compute_roi
    (annual_ops_cost labor_share manpower_reduction productivity_gain
       platform_cost : num) : Res dict :=
  f <- compute_roi_body annual_ops_cost labor_share manpower_reduction
         productivity_gain platform_cost ;;
  Return (results f).

(** [max(s, 1)] on a double [s], as the double the payback divides by. *)
Definition floored (s : float) : float :=
  if gt (Int 1) (Float s) then 1%float else s.

(** [x + y == z] on the real numbers the three stand for. *)
Definition sums_to (x y z : num) : Prop :=
  match value x, value y, value z with
  | Some qx, Some qy, Some qz => qx + qy == qz
  | _, _, _ => False
  end.

(** The doubles Python reads the decimal literals as. *)
Definition d0_10 : float := 0x1.999999999999ap-4%float.
Definition d0_20 : float := 0x1.999999999999ap-3%float.
Definition d0_30 : float := 0x1.3333333333333p-2%float.
Definition d0_70 : float := 0x1.6666666666666p-1%float.
Definition d0_80 : float := 0x1.999999999999ap-1%float.
Definition d0_82 : float := 0x1.a3d70a3d70a3dp-1%float.

End Py.

(** [computes A L M G P Pr]: the call [compute_roi(A, L, M, G, P)] returns;
    the dictionary it returns is built from locals that satisfy [Pr]. *)
Definition computes (A L M G P : Q) (Pr : locals -> Prop) : Prop :=
  exists f, compute_roi_body A L M G P = Return f
            /\ compute_roi A L M G P = Return (results f)
            /\ Pr f.

(** The sampling as the specification words it: the integer percentage
    points of [0, 40] that lie on the stride [s], in ascending order. *)
Definition stride_points (s : Z) : list Z :=
  filter (fun i => (i mod s =? 0)%Z) (map Z.of_nat (seq 0 41)).

(** The scenario a row of the sweep is computed from: the base scenario
    with the lever [x] put in the place [opt] selects. *)
Definition row_of (A L M G P : Q) (opt : string) (x : Q) (r : dict) : Prop :=
  exists d,
    (if String.eqb opt "Manpower reduction (%)"
     then compute_roi A L x G P
     else compute_roi A L M x P) = Return d
    /\ r = dict_set "x" x d.

(** ** The sidebar and the two computing tabs

    What the widgets hand to the script on one run.  The two
    [number_input]s are declared with integer bounds and return an
    integer; a button is true on the run its click triggers. *)

Record widgets : Type := mkWidgets {
  w_annual_ops_cost : Z;
  w_labor_share : Q;
  w_manpower_reduction : Q;
  w_productivity_gain : Q;
  w_platform_cost : Z;
  w_mall : bool;
  w_precinct : bool;
  w_opt : string;
  w_steps : Z
}.

(** The bounds the widget declarations put on their values (lines 84-98,
    185-190). *)
Definition in_range (w : widgets) : Prop :=
  (500000 <= w_annual_ops_cost w)%Z
  /\ 0.30 <= w_labor_share w <= 0.95
  /\ 0.00 <= w_manpower_reduction w <= 0.50
  /\ 0.00 <= w_productivity_gain w <= 0.40
  /\ (100000 <= w_platform_cost w)%Z
  /\ (w_opt w = "Manpower reduction (%)"%string
      \/ w_opt w = "Productivity gain (%)"%string)
  /\ (5 <= w_steps w <= 30)%Z.

(** The five script variables after the sidebar block. *)
Record inputs : Type := mkInputs {
  in_annual_ops_cost : Q;
  in_labor_share : Q;
  in_manpower_reduction : Q;
  in_productivity_gain : Q;
  in_platform_cost : Q
}.

(** Lines 84-114: the widget values, then the two preset blocks in
    order; a preset reassigns four of the five variables. *)
Definition sidebar (w : widgets) : inputs :=
  let annual_ops_cost := inject_Z (w_annual_ops_cost w) in
  let labor_share := w_labor_share w in
  let manpower_reduction := w_manpower_reduction w in
  let productivity_gain := w_productivity_gain w in
  let platform_cost := inject_Z (w_platform_cost w) in
  let '(labor_share, manpower_reduction, productivity_gain, platform_cost) :=
    if w_mall w
    then (0.80, 0.20, 0.25, 600000)
    else (labor_share, manpower_reduction, productivity_gain, platform_cost) in
  let '(labor_share, manpower_reduction, productivity_gain, platform_cost) :=
    if w_precinct w
    then (0.78, 0.18, 0.25, 750000)
    else (labor_share, manpower_reduction, productivity_gain, platform_cost) in
  mkInputs annual_ops_cost labor_share manpower_reduction productivity_gain
    platform_cost.

(** Lines 130-132: [results] of the calculator tab. *)
Definition tab_calc (w : widgets) : Res dict :=
  let i := sidebar w in
  compute_roi (in_annual_ops_cost i) (in_labor_share i)
    (in_manpower_reduction i) (in_productivity_gain i) (in_platform_cost i).

(** Lines 185-210: [rows] of the sensitivity tab. *)
Definition tab_sens (w : widgets) : Res (list dict) :=
  let i := sidebar w in
  sweep (in_annual_ops_cost i) (in_labor_share i)
    (in_manpower_reduction i) (in_productivity_gain i) (in_platform_cost i)
    (w_opt w) (w_steps w).

(** ** Data frames

    [pd.DataFrame(rows)]: the columns are the keys of the rows in order
    of first appearance; a row without a key holds NaN there, [None]
    below. *)

Definition mem_string (k : string) (l : list string) : bool :=
  existsb (String.eqb k) l.

Fixpoint frame_columns (rows : list dict) (seen : list string) : list string :=
  match rows with
  | [] => seen
  | r :: rows' =>
      frame_columns rows'
        (fold_left (fun acc k => if mem_string k acc then acc else acc ++ [k])
           (map fst r) seen)
  end.

(** [df[cols]] with a list of labels: a label that is no column is a
    [KeyError], here [None]; otherwise every row is cut down to [cols]. *)
Definition frame_select (cols : list string) (rows : list dict)
  : option (list (list (option Q))) :=
  if forallb (fun c => mem_string c (frame_columns rows [])) cols
  then Some (map (fun r => map (fun c => dict_get c r) cols) rows)
  else None.

(** Lines 200 and 212: the columns the chart is drawn from. *)
Definition chart_columns : list string :=
  [ "x"; "Savings"; "ROI (Savings / Platform)"; "Payback (months)" ]%string.

(** [df[k]]: one column of a list of rows. *)
Definition column (k : string) (rows : list dict) : list (option Q) :=
  map (dict_get k) rows.

(** ** Display helpers

    The thousands grouping of [f"${x:,.0f}"] (line 70). *)

(** The [,] option: digits least significant first, a comma after every
    third digit that has a digit above it. *)
Fixpoint group3 (r : list ascii) : list ascii :=
  match r with
  | a :: b :: c :: ((_ :: _) as rest) => a :: b :: c :: ","%char :: group3 rest
  | _ => r
  end.

Definition thousands (digits : string) : string :=
  string_of_list_ascii (rev (group3 (rev (list_ascii_of_string digits)))).

(** Dropping the commas of a grouped string. *)
Definition not_comma (c : ascii) : bool := negb (Ascii.eqb c ","%char).

Definition strip_commas (s : string) : string :=
  string_of_list_ascii (filter not_comma (list_ascii_of_string s)).

(** * Properties *)

(** ** Arithmetic helpers *)

Lemma Qlt_bool_iff (a b : Q) : Qlt_bool a b = true <-> a < b.
Proof.
  unfold Qlt_bool. rewrite negb_true_iff.
  destruct (Qle_bool b a) eqn:E.
  - apply Qle_bool_iff in E. split; [discriminate | lra].
  - split; [intros _ | reflexivity].
    destruct (Qlt_le_dec a b) as [H | H]; [exact H |].
    apply Qle_bool_iff in H. congruence.
Qed.

Lemma Qlt_bool_false_iff (a b : Q) : Qlt_bool a b = false <-> b <= a.
Proof.
  unfold Qlt_bool. rewrite negb_false_iff. apply Qle_bool_iff.
Qed.

Lemma truthy_iff (x : Q) : truthy x = true <-> ~ x == 0.
Proof.
  unfold truthy. rewrite negb_true_iff.
  destruct (Qeq_bool x 0) eqn:E.
  - apply Qeq_bool_iff in E. split; [discriminate | tauto].
  - apply Qeq_bool_neq in E. tauto.
Qed.

Lemma truthy_false_iff (x : Q) : truthy x = false <-> x == 0.
Proof.
  unfold truthy. rewrite negb_false_iff. apply Qeq_bool_iff.
Qed.

Lemma truediv_nonzero (a b : Q) : ~ b == 0 -> truediv a b = Return (a / b).
Proof.
  intros H. unfold truediv.
  destruct (Qeq_bool b 0) eqn:E; [| reflexivity].
  apply Qeq_bool_iff in E. contradiction.
Qed.

Lemma truediv_zero (a b : Q) : b == 0 -> truediv a b = Raise ZeroDivisionError.
Proof.
  intros H. unfold truediv. apply Qeq_bool_iff in H. now rewrite H.
Qed.

Lemma py_max_ge_r (a b : Q) : b <= py_max a b.
Proof.
  unfold py_max. destruct (Qlt_bool a b) eqn:E.
  - lra.
  - now apply Qlt_bool_false_iff in E.
Qed.

Lemma py_max_clamped (a b : Q) : a <= b -> py_max a b == b.
Proof.
  intros H. unfold py_max. destruct (Qlt_bool a b) eqn:E.
  - reflexivity.
  - apply Qlt_bool_false_iff in E. lra.
Qed.

Lemma py_max_free (a b : Q) : b <= a -> py_max a b = a.
Proof.
  intros H. unfold py_max. destruct (Qlt_bool a b) eqn:E.
  - apply Qlt_bool_iff in E. lra.
  - reflexivity.
Qed.

(** ** [compute_roi] never raises *)

Section Scenario.

Variables A L M G P : Q.

(** The value of [savings]. *)
Let sv : Q := A - ((A * L - A * L * M) + A * (1 - L) + P).

(** Both divisions are guarded, so the body runs to [return]; the
    locals it reaches are these. *)
Lemma compute_roi_body_eq :
  compute_roi_body A L M G P =
  Return (mkLocals A L M G P
            (A * L) (A * (1 - L)) (A * L * M)
            ((A * L - A * L * M) + A * (1 - L) + P)
            sv
            (if truthy P then sv / P else 0)
            (if Qlt_bool 0 P then 12 * (P / py_max sv 1) else 0)
            (1 + G)).
Proof.
  unfold compute_roi_body. fold sv.
  destruct (truthy P) eqn:Et.
  - apply truthy_iff in Et. rewrite (truediv_nonzero sv P Et). cbn [bind].
    destruct (Qlt_bool 0 P) eqn:El; [| reflexivity].
    rewrite truediv_nonzero; [reflexivity |].
    pose proof (py_max_ge_r sv 1). lra.
  - cbn [bind].
    destruct (Qlt_bool 0 P) eqn:El; [| reflexivity].
    rewrite truediv_nonzero; [reflexivity |].
    pose proof (py_max_ge_r sv 1). lra.
Qed.

Lemma compute_roi_eq :
  exists f, compute_roi_body A L M G P = Return f
            /\ compute_roi A L M G P = Return (results f).
Proof.
  unfold compute_roi. rewrite compute_roi_body_eq.
  eexists. split; reflexivity.
Qed.

End Scenario.

Lemma computes_intro (A L M G P : Q) (Pr : locals -> Prop) :
  (forall f, compute_roi_body A L M G P = Return f -> Pr f) ->
  computes A L M G P Pr.
Proof.
  intros H. destruct (compute_roi_eq A L M G P) as [f [Hb Hd]].
  exists f. auto.
Qed.

(** The entries of the returned dictionary, key by key. *)
Lemma results_items (f : locals) :
  dict_get "Baseline cost" (results f) = Some (annual_ops_cost f)
  /\ dict_get "New cost" (results f) = Some (new_ops_cost f)
  /\ dict_get "Savings" (results f) = Some (savings f)
  /\ dict_get "Platform cost" (results f) = Some (platform_cost f)
  /\ dict_get "ROI (Savings / Platform)" (results f) = Some (roi f)
  /\ dict_get "Payback (months)" (results f) = Some (payback_months f)
  /\ dict_get "Labor share" (results f) = Some (labor_share f)
  /\ dict_get "Manpower reduction (%)" (results f)
     = Some (manpower_reduction f)
  /\ dict_get "Productivity gain (%)" (results f)
     = Some (productivity_gain f)
  /\ dict_get "Throughput multiplier (1+prod)" (results f)
     = Some (throughput_effect f).
Proof. repeat split. Qed.

(** ** The case-narrative scenario *)

Ltac run_body H :=
  rewrite compute_roi_body_eq in H; injection H as <-.

(** C1, as stated, fails: with a baseline of 5,000,000, labor share 0.80,
    manpower reduction 0.20, productivity gain 0.25 and platform cost
    600,000 the call does not come back with [new_ops_cost = 3,800,000],
    [savings = 1,200,000], [roi = 2] and [payback_months = 6]. *)
Lemma narrative_scenario_not_as_specified :
  ~ computes 5000000 0.8 0.2 0.25 600000
      (fun f => labor_cost f == 4000000
                /\ non_labor f == 1000000
                /\ labor_savings f == 800000
                /\ new_ops_cost f == 3800000
                /\ savings f == 1200000
                /\ roi f == 2
                /\ payback_months f == 6
                /\ throughput_effect f == 1.25).
Proof.
  intros (f & Hb & _ & H). run_body Hb.
  destruct H as (_ & _ & _ & H & _).
  vm_compute in H. discriminate H.
Qed.

(** C1 (amended): on that scenario, with the baseline and the platform
    cost passed as integers as the sidebar passes them, [compute_roi]
    returns a new cost of 4,800,000, savings of 200,000, an ROI of
    0.3333333333333333 (the double nearest to 1/3), a payback of 36
    months and a throughput multiplier of 1.25; on the way it reaches
    [labor_cost = 4,000,000], [labor_savings = 800,000] and
    [non_labor = 999,999.9999999998], one rounding step below
    1,000,000. *)
Theorem narrative_scenario :
  returns (Py.compute_roi (Py.Int 5000000) (Py.Float Py.d0_80)
             (Py.Float Py.d0_20) (Py.Float 0.25) (Py.Int 600000))
    (fun r =>
       Py.dict_get "Baseline cost" r = Some (Py.Int 5000000)
       /\ Py.dict_get "New cost" r = Some (Py.Float 4800000)
       /\ Py.dict_get "Savings" r = Some (Py.Float 200000)
       /\ Py.dict_get "Platform cost" r = Some (Py.Int 600000)
       /\ Py.dict_get "ROI (Savings / Platform)" r
          = Some (Py.Float 0x1.5555555555555p-2)
       /\ Py.dict_get "Payback (months)" r = Some (Py.Float 36)
       /\ Py.dict_get "Throughput multiplier (1+prod)" r
          = Some (Py.Float 1.25))
  /\ returns (Py.compute_roi_body (Py.Int 5000000) (Py.Float Py.d0_80)
                (Py.Float Py.d0_20) (Py.Float 0.25) (Py.Int 600000))
       (fun f =>
          Py.labor_cost f = Py.Float 4000000
          /\ Py.non_labor f = Py.Float 0x1.e847ffffffffep+19
          /\ Py.labor_savings f = Py.Float 800000).
Proof.
  split; eexists; (split; [vm_compute; reflexivity |]); repeat split.
Qed.

(** The same figures come back when the baseline and the platform cost
    are passed as doubles. *)
Lemma narrative_scenario_on_doubles :
  returns (Py.compute_roi (Py.Float 5000000) (Py.Float Py.d0_80)
             (Py.Float Py.d0_20) (Py.Float 0.25) (Py.Float 600000))
    (fun r =>
       Py.dict_get "New cost" r = Some (Py.Float 4800000)
       /\ Py.dict_get "Savings" r = Some (Py.Float 200000)
       /\ Py.dict_get "ROI (Savings / Platform)" r
          = Some (Py.Float 0x1.5555555555555p-2)
       /\ Py.dict_get "Payback (months)" r = Some (Py.Float 36)).
Proof.
  eexists. split; [vm_compute; reflexivity |]. repeat split.
Qed.

(** ** [compute_roi] on doubles *)

Lemma float_of_int_1 : Py.float_of_int 1 = Return 1%float.
Proof. vm_compute. reflexivity. Qed.

Lemma float_of_int_12 : Py.float_of_int 12 = Return 12%float.
Proof. vm_compute. reflexivity. Qed.

Lemma one_is_not_zero : Py.float_is_zero 1 = false.
Proof. vm_compute. reflexivity. Qed.

(** A double that the test [1 > s] rejects is not a zero: the floored
    divisor is safe. *)
Lemma not_below_one_not_zero (s : float) :
  Py.gt (Py.Int 1) (Py.Float s) = false -> Py.float_is_zero s = false.
Proof.
  unfold Py.gt, Py.compare_int_float, Py.float_is_zero.
  destruct (Prim2SF s) as [sg | sg | | sg m e]; try reflexivity.
  cbn. discriminate.
Qed.

Lemma payback_quotient (p s : float) :
  Py.truediv (Py.Float p) (Py.py_max (Py.Float s) (Py.Int 1))
  = Return (Py.Float (PrimFloat.div p (Py.floored s))).
Proof.
  unfold Py.py_max, Py.floored.
  destruct (Py.gt (Py.Int 1) (Py.Float s)) eqn:E.
  - unfold Py.truediv. cbn [Py.as_float bind].
    rewrite float_of_int_1. cbn [bind]. rewrite one_is_not_zero. reflexivity.
  - unfold Py.truediv. cbn [Py.as_float bind].
    rewrite (not_below_one_not_zero s E). reflexivity.
Qed.

Section Doubles.

Variables a l m g p : float.

Local Open Scope float_scope.

(** The new cost and the savings, as the doubles the code computes. *)
Let n : float := ((a * l - a * l * m) + a * (1 - l)) + p.
Let s : float := a - n.

(** On five doubles no conversion is needed and both divisions are
    guarded: the body runs to [return], with these locals. *)
Lemma compute_roi_body_doubles :
  Py.compute_roi_body (Py.Float a) (Py.Float l) (Py.Float m) (Py.Float g)
    (Py.Float p)
  = Return
      (Py.mkLocals (Py.Float a) (Py.Float l) (Py.Float m) (Py.Float g)
         (Py.Float p)
         (Py.Float (a * l)) (Py.Float (a * (1 - l)))
         (Py.Float (a * l * m)) (Py.Float n) (Py.Float s)
         (if Py.float_is_zero p then Py.Float 0 else Py.Float (s / p))
         (if Py.gt (Py.Float p) (Py.Int 0)
          then Py.Float (12 * (p / Py.floored s)) else Py.Float 0)
         (Py.Float (1 + g))).
Proof.
  unfold Py.compute_roi_body, Py.mul, Py.sub, Py.add, Py.arith.
  cbn [Py.as_float bind]. rewrite float_of_int_1.
  cbn [Py.as_float bind]. fold n. fold s.
  assert (Hroi : (if Py.truthy (Py.Float p)
                  then Py.truediv (Py.Float s) (Py.Float p)
                  else Return (Py.Float 0))
                 = Return (if Py.float_is_zero p then Py.Float 0
                           else Py.Float (s / p))).
  { unfold Py.truthy, Py.truediv. cbn [Py.as_float bind].
    destruct (Py.float_is_zero p); reflexivity. }
  rewrite Hroi. cbn [bind].
  rewrite payback_quotient. cbn [Py.as_float bind].
  rewrite float_of_int_12. cbn [bind].
  destruct (Py.gt (Py.Float p) (Py.Int 0)); reflexivity.
Qed.

Lemma compute_roi_doubles :
  exists f,
    Py.compute_roi_body (Py.Float a) (Py.Float l) (Py.Float m) (Py.Float g)
      (Py.Float p) = Return f
    /\ Py.compute_roi (Py.Float a) (Py.Float l) (Py.Float m) (Py.Float g)
         (Py.Float p) = Return (Py.results f).
Proof.
  unfold Py.compute_roi. rewrite compute_roi_body_doubles.
  eexists. split; reflexivity.
Qed.

End Doubles.

Ltac run_doubles H :=
  rewrite compute_roi_body_doubles in H; injection H as <-.

(** What [compute_roi] returns on rationals, entry by entry. *)
Ltac returned A L M G P :=
  let f := fresh "f" in
  let Hb := fresh "Hb" in
  let Hd := fresh "Hd" in
  destruct (compute_roi_eq A L M G P) as (f & Hb & Hd);
  exists (results f); split; [exact Hd |]; run_body Hb.

(** ** Identities of the model *)

(** C3, as stated, fails on the numbers the code computes with: for the
    doubles 0.1, 0.3, 0.7, 0 and 0.3 the returned new cost and savings
    do not add up to the returned baseline. *)
Lemma new_cost_plus_savings_rounds :
  ~ returns (Py.compute_roi (Py.Float Py.d0_10) (Py.Float Py.d0_30)
               (Py.Float Py.d0_70) (Py.Float 0) (Py.Float Py.d0_30))
      (fun r =>
         exists b n s,
           Py.dict_get "Baseline cost" r = Some b
           /\ Py.dict_get "New cost" r = Some n
           /\ Py.dict_get "Savings" r = Some s
           /\ Py.sums_to n s b).
Proof.
  intros (r & Hr & b & n & s & Hb & Hn & Hs & H).
  vm_compute in Hr. injection Hr as <-.
  cbn in Hb, Hn, Hs. injection Hb as <-. injection Hn as <-.
  injection Hs as <-. vm_compute in H. discriminate H.
Qed.

(** C3 (amended): on doubles, whatever they are, the returned savings
    are the returned baseline less the returned new cost in one rounded
    subtraction; the sum of new cost and savings is the baseline up to
    that rounding, not exactly. *)
Theorem new_cost_plus_savings (a l m g p : float) :
  returns (Py.compute_roi (Py.Float a) (Py.Float l) (Py.Float m)
             (Py.Float g) (Py.Float p))
    (fun r =>
       exists n,
         Py.dict_get "Baseline cost" r = Some (Py.Float a)
         /\ Py.dict_get "New cost" r = Some (Py.Float n)
         /\ Py.dict_get "Savings" r = Some (Py.Float (PrimFloat.sub a n))).
Proof.
  destruct (compute_roi_doubles a l m g p) as (f & Hb & Hd).
  exists (Py.results f). split; [exact Hd |]. run_doubles Hb.
  eexists. repeat split.
Qed.

(** In exact arithmetic the identity of C3 holds of the returned
    entries. *)
Lemma new_cost_plus_savings_exact (A L M G P : Q) :
  returns (compute_roi A L M G P)
    (fun r =>
       exists n s,
         dict_get "Baseline cost" r = Some A
         /\ dict_get "New cost" r = Some n
         /\ dict_get "Savings" r = Some s
         /\ n + s == A).
Proof.
  returned A L M G P. eexists _, _. repeat split. cbn. ring.
Qed.

(** C10, as stated, fails on the numbers the code computes with: at a
    baseline of 5,000,000, labor share 0.82, manpower reduction 0.50 and
    platform cost 2,050,000 the labor savings round to
    2,049,999.9999999998, below the platform cost, and the savings
    returned are 0.0, not negative. *)
Lemma savings_closed_form_rounds :
  ~ (exists f,
        Py.compute_roi_body (Py.Float 5000000) (Py.Float Py.d0_82)
          (Py.Float 0.5) (Py.Float 0.25) (Py.Float 2050000) = Return f
        /\ Py.compute_roi (Py.Float 5000000) (Py.Float Py.d0_82)
             (Py.Float 0.5) (Py.Float 0.25) (Py.Float 2050000)
           = Return (Py.results f)
        /\ Py.sums_to (Py.savings f) (Py.platform_cost f) (Py.labor_savings f)
        /\ (Py.gt (Py.platform_cost f) (Py.labor_savings f) = true ->
            Py.gt (Py.Int 0) (Py.savings f) = true)).
Proof.
  intros (f & Hb & _ & _ & H).
  vm_compute in Hb. injection Hb as <-.
  assert (Hgt : Py.gt (Py.Float 2050000)
                  (Py.Float 0x1.f47cfffffffffp+20) = true)
    by (vm_compute; reflexivity).
  specialize (H Hgt). vm_compute in H. discriminate H.
Qed.

(** C10 (amended): on doubles, whatever they are, the returned savings
    are [A - (((A*L - A*L*M) + A*(1 - L)) + P)] with every operation
    rounded; as an expression of exact arithmetic this is
    [A*L*M - P], negative whenever [P] exceeds [A*L*M]. *)
Theorem savings_closed_form (a l m g p : float) (A L M P : Q) :
  returns (Py.compute_roi (Py.Float a) (Py.Float l) (Py.Float m)
             (Py.Float g) (Py.Float p))
    (fun r =>
       Py.dict_get "Savings" r
       = Some (Py.Float (a - (((a * l - a * l * m) + a * (1 - l)) + p))))
  /\ A - (((A * L - A * L * M) + A * (1 - L)) + P) == A * L * M - P
  /\ (A * L * M < P ->
      A - (((A * L - A * L * M) + A * (1 - L)) + P) < 0).
Proof.
  split; [| split].
  - destruct (compute_roi_doubles a l m g p) as (f & Hb & Hd).
    exists (Py.results f). split; [exact Hd |]. run_doubles Hb.
    reflexivity.
  - ring.
  - intros H. lra.
Qed.

Lemma savings_closed_form_witness :
  5000000 - (((5000000 * 0.8 - 5000000 * 0.8 * 0.2) + 5000000 * (1 - 0.8))
             + 900000) < 0.
Proof.
  apply (savings_closed_form 0 0 0 0 0 5000000 0.8 0.2 900000).
  reflexivity.
Defined.

(** In exact arithmetic the closed form holds of the returned entry. *)
Lemma savings_closed_form_exact (A L M G P : Q) :
  returns (compute_roi A L M G P)
    (fun r =>
       exists s,
         dict_get "Savings" r = Some s
         /\ s == A * L * M - P
         /\ (A * L * M < P -> s < 0)).
Proof.
  returned A L M G P. eexists. split; [reflexivity |]. cbn.
  split; [ring | intros H; lra].
Qed.

(** C5: with a zero platform cost the returned ROI is 0; with a non-zero
    platform cost it is the returned savings over the platform cost.
    This holds on rationals and, with the division rounded, on doubles
    (a negative zero counts as zero). *)
Theorem roi_cases (A L M G P : Q) (a l m g p : float) :
  returns (compute_roi A L M G P)
    (fun r =>
       exists s ro,
         dict_get "Savings" r = Some s
         /\ dict_get "Platform cost" r = Some P
         /\ dict_get "ROI (Savings / Platform)" r = Some ro
         /\ (P == 0 -> ro = 0)
         /\ (~ P == 0 -> ro = s / P))
  /\ returns (Py.compute_roi (Py.Float a) (Py.Float l) (Py.Float m)
                (Py.Float g) (Py.Float p))
       (fun r =>
          exists s ro,
            Py.dict_get "Savings" r = Some (Py.Float s)
            /\ Py.dict_get "Platform cost" r = Some (Py.Float p)
            /\ Py.dict_get "ROI (Savings / Platform)" r = Some (Py.Float ro)
            /\ (Py.float_is_zero p = true -> ro = 0%float)
            /\ (Py.float_is_zero p = false -> ro = PrimFloat.div s p)).
Proof.
  split.
  - returned A L M G P. eexists _, _. repeat split; cbn; intros H.
    + apply truthy_false_iff in H. now rewrite H.
    + apply truthy_iff in H. now rewrite H.
  - destruct (compute_roi_doubles a l m g p) as (f & Hb & Hd).
    exists (Py.results f). split; [exact Hd |]. run_doubles Hb.
    cbn [Py.results Py.dict_get String.eqb Ascii.eqb Bool.eqb
         Py.savings Py.platform_cost Py.roi].
    destruct (Py.float_is_zero p);
      eexists _, _; repeat split; intros H; try discriminate H; reflexivity.
Qed.

Lemma roi_cases_witness :
  returns (compute_roi 5000000 0.8 0.2 0.25 0)
    (fun r => dict_get "ROI (Savings / Platform)" r = Some 0)
  /\ returns (compute_roi 5000000 0.8 0.2 0.25 600000)
       (fun r => exists s ro,
            dict_get "Savings" r = Some s
            /\ dict_get "ROI (Savings / Platform)" r = Some ro
            /\ ro = s / 600000).
Proof.
  split.
  - destruct (roi_cases 5000000 0.8 0.2 0.25 0 0 0 0 0 0)
      as ((r & Hr & s & ro & _ & _ & Hro & H & _) & _).
    exists r. split; [exact Hr |]. rewrite Hro. f_equal. apply H. reflexivity.
  - destruct (roi_cases 5000000 0.8 0.2 0.25 600000 0 0 0 0 0)
      as ((r & Hr & s & ro & Hs & _ & Hro & _ & H) & _).
    exists r. split; [exact Hr |]. exists s, ro.
    split; [exact Hs | split; [exact Hro |]]. apply H. discriminate.
Defined.



(** ** Totality *)

(** C6, as stated, fails: an integer argument too large for a double
    makes the first multiplication raise [OverflowError]. *)
Lemma compute_roi_raises_on_huge_int :
  ~ (forall A L M G P : Py.num, exists r, Py.compute_roi A L M G P = Return r).
Proof.
  intros H.
  destruct (H (Py.Int (10 ^ 400)) (Py.Float Py.d0_80) (Py.Float Py.d0_20)
              (Py.Float 0.25) (Py.Int 600000)) as (r & Hr).
  vm_compute in Hr. discriminate Hr.
Qed.

(** C6 (amended): on five doubles, whatever they are (negative,
    infinite and NaN included), [compute_roi] returns a dictionary and
    raises nothing: the first division is guarded by the truth value of
    the platform cost, and the second divisor, [max(savings, 1)], is
    never zero. *)
Theorem compute_roi_total (a l m g p : float) :
  exists r,
    Py.compute_roi (Py.Float a) (Py.Float l) (Py.Float m) (Py.Float g)
      (Py.Float p) = Return r.
Proof.
  destruct (compute_roi_doubles a l m g p) as (f & _ & Hd).
  exists (Py.results f). exact Hd.
Qed.

(** The exception a huge integer baseline raises. *)
Lemma compute_roi_overflow :
  Py.compute_roi (Py.Int (10 ^ 400)) (Py.Float Py.d0_80) (Py.Float Py.d0_20)
    (Py.Float 0.25) (Py.Int 600000) = Raise OverflowError.
Proof. vm_compute. reflexivity. Qed.

(** The guards are what keeps the divisions safe: unguarded, the first
    one raises on a zero platform cost. *)
Lemma unguarded_division_raises (s : Q) :
  truediv s 0 = Raise ZeroDivisionError.
Proof. reflexivity. Qed.

(** ** Productivity gain does not reach the cost figures *)



(** ** The stride and the range *)

Lemma stride_eq (steps : Z) :
  steps <> 1%Z ->
  stride steps = Return (py_max_int 1 (Z.quot 40 (steps - 1))).
Proof.
  intros H. unfold stride, int_truediv.
  destruct (steps - 1 =? 0)%Z eqn:E; [| reflexivity].
  apply Z.eqb_eq in E. lia.
Qed.

Lemma stride_raises_at_one : stride 1 = Raise ZeroDivisionError.
Proof. reflexivity. Qed.

Lemma py_max_int_max (a b : Z) : py_max_int a b = Z.max a b.
Proof.
  unfold py_max_int. destruct (a <? b)%Z eqn:E.
  - apply Z.ltb_lt in E. lia.
  - apply Z.ltb_ge in E. lia.
Qed.

Lemma stride_bounds (steps : Z) :
  steps <> 1%Z ->
  (1 <= py_max_int 1 (Z.quot 40 (steps - 1)) <= 40)%Z.
Proof.
  intros H. rewrite py_max_int_max.
  destruct (Z.lt_ge_cases 0 (steps - 1)) as [Hpos | Hneg].
  - rewrite Z.quot_div_nonneg by lia.
    assert (40 / (steps - 1) <= 40)%Z.
    { apply Z.div_le_upper_bound; nia. }
    lia.
  - assert (Hq : (Z.quot 40 (steps - 1) <= 0)%Z).
    { replace (steps - 1)%Z with (- (1 - steps))%Z by lia.
      rewrite Z.quot_opp_r by lia.
      assert (0 <= Z.quot 40 (1 - steps))%Z by (apply Z.quot_pos; lia).
      lia. }
    lia.
Qed.

Lemma stride_floor (steps : Z) :
  (2 <= steps)%Z ->
  stride steps = Return (Z.max 1 (40 / (steps - 1))).
Proof.
  intros H. rewrite stride_eq by lia.
  rewrite py_max_int_max, Z.quot_div_nonneg by lia. reflexivity.
Qed.

Lemma seq_strictly_sorted (a n : nat) : StronglySorted lt (seq a n).
Proof.
  revert a. induction n as [| n IH]; intros a; cbn [seq].
  - constructor.
  - constructor; [apply IH |].
    apply Forall_forall. intros x Hx. apply in_seq in Hx. lia.
Qed.

Lemma map_strictly_sorted {X Y : Type} (RX : X -> X -> Prop)
    (RY : Y -> Y -> Prop) (g : X -> Y) (l : list X) :
  (forall a b, RX a b -> RY (g a) (g b)) ->
  StronglySorted RX l -> StronglySorted RY (map g l).
Proof.
  intros Hg Hl. induction Hl as [| a l Hl IH Ha]; cbn [map].
  - constructor.
  - constructor; [exact IH |].
    apply Forall_forall. intros y Hy.
    apply in_map_iff in Hy. destruct Hy as (x & <- & Hx).
    apply Hg. rewrite Forall_forall in Ha. now apply Ha.
Qed.

Lemma py_range_sorted (start stop step : Z) :
  (0 < step)%Z -> StronglySorted Z.lt (py_range start stop step).
Proof.
  intros H. unfold py_range.
  apply (map_strictly_sorted lt); [| apply seq_strictly_sorted].
  intros a b Hab. nia.
Qed.

Lemma py_range_bounds (start stop step x : Z) :
  (0 < step)%Z -> In x (py_range start stop step) ->
  (start <= x < stop)%Z.
Proof.
  intros Hs Hx. unfold py_range, range_len in Hx.
  apply in_map_iff in Hx. destruct Hx as (i & <- & Hi).
  apply in_seq in Hi.
  destruct (start <? stop)%Z eqn:E; [| cbn in Hi; lia].
  apply Z.ltb_lt in E.
  assert (Hq : (0 <= (stop - start - 1) / step)%Z)
    by (apply Z.div_pos; lia).
  assert (Hi' : (Z.of_nat i <= (stop - start - 1) / step)%Z) by lia.
  pose proof (Z.mul_div_le (stop - start - 1) step Hs).
  nia.
Qed.

Lemma py_range_length (s : Z) :
  (0 < s)%Z ->
  List.length (py_range 0 41 s) = Z.to_nat (40 / s + 1).
Proof.
  intros H. unfold py_range. rewrite length_map, length_seq.
  unfold range_len. reflexivity.
Qed.

Lemma py_range_head (s : Z) :
  (0 < s)%Z -> exists tl, py_range 0 41 s = 0%Z :: tl.
Proof.
  intros H. unfold py_range, range_len. cbn [Z.ltb Z.compare].
  replace (41 - 0 - 1)%Z with 40%Z by reflexivity.
  assert (Hq : (0 <= 40 / s)%Z) by (apply Z.div_pos; lia).
  rewrite Z2Nat.inj_add by lia.
  rewrite Nat.add_comm. cbn [Z.to_nat Pos.to_nat Pos.iter_op Nat.add seq map].
  eexists. reflexivity.
Qed.

(** On every stride the loop can take, [range(0, 41, s)] is the list of
    the points of [0, 40] on the stride. *)
Lemma py_range_stride_points (s : Z) :
  (1 <= s <= 40)%Z -> py_range 0 41 s = stride_points s.
Proof.
  intros H.
  assert (Hall : Forall (fun s => py_range 0 41 s = stride_points s)
                   (map Z.of_nat (seq 1 40))).
  { cbv [map seq].
    repeat (apply Forall_cons; [vm_compute; reflexivity |]).
    apply Forall_nil. }
  rewrite Forall_forall in Hall. apply Hall.
  apply in_map_iff. exists (Z.to_nat s). split; [lia |].
  apply in_seq. lia.
Qed.

(** ** Lever values as rationals *)

Lemma percent_lt (i j : Z) : (i < j)%Z -> percent i < percent j.
Proof.
  intros H. unfold percent, Qdiv.
  apply Qmult_lt_r; [reflexivity |]. now rewrite <- Zlt_Qlt.
Qed.

Lemma percent_le (i j : Z) : (i <= j)%Z -> percent i <= percent j.
Proof.
  intros H. unfold percent, Qdiv.
  apply Qmult_le_r; [reflexivity |]. now rewrite <- Zle_Qle.
Qed.

Lemma xs_eq (steps : Z) :
  steps <> 1%Z ->
  xs steps
  = Return (map percent (py_range 0 41 (py_max_int 1 (Z.quot 40 (steps - 1))))).
Proof.
  intros H. unfold xs. rewrite stride_eq by exact H. reflexivity.
Qed.

(** ** The loop *)

Lemma for_each_total {X Y : Type} (f : X -> Res Y) (R : X -> Y -> Prop)
    (l : list X) :
  (forall x, exists y, f x = Return y /\ R x y) ->
  exists ys, for_each f l = Return ys /\ Forall2 R l ys.
Proof.
  intros Hf. induction l as [| x l (ys & Hys & HR)]; cbn [for_each].
  - exists []. split; [reflexivity | constructor].
  - destruct (Hf x) as (y & Hy & Hxy).
    exists (y :: ys). rewrite Hy, Hys. cbn [bind].
    split; [reflexivity | now constructor].
Qed.

Lemma lever_of_row (x : Q) (f : locals) :
  lever_of (dict_set "x" x (results f)) = Some x.
Proof. reflexivity. Qed.

(** Once the lever values are there, the loop returns one row per value,
    each the result of [compute_roi] on that value with [r["x"]] set. *)
Lemma sweep_rows (A L M G P : Q) (opt : string) (steps : Z) (l : list Q) :
  xs steps = Return l ->
  exists rows,
    sweep A L M G P opt steps = Return rows
    /\ Forall2 (fun x r => lever_of r = Some x /\ row_of A L M G P opt x r)
         l rows.
Proof.
  intros Hl. unfold sweep, row_of.
  destruct (String.eqb opt "Manpower reduction (%)");
    rewrite Hl; cbn [bind]; apply for_each_total; intros x.
  - destruct (compute_roi_eq A L x G P) as (f & _ & Hd).
    eexists. rewrite Hd. cbn [bind]. split; [reflexivity |].
    split; [apply lever_of_row | eauto].
  - destruct (compute_roi_eq A L M x P) as (f & _ & Hd).
    eexists. rewrite Hd. cbn [bind]. split; [reflexivity |].
    split; [apply lever_of_row | eauto].
Qed.

Lemma Forall2_levers (R : Q -> dict -> Prop) (l : list Q) (rows : list dict) :
  Forall2 (fun x r => lever_of r = Some x /\ R x r) l rows ->
  map lever_of rows = map Some l.
Proof.
  induction 1 as [| x r l rows [Hx _] _ IH]; cbn [map].
  - reflexivity.
  - now rewrite Hx, IH.
Qed.

Lemma sweep_raises_at_one (A L M G P : Q) (opt : string) :
  sweep A L M G P opt 1 = Raise ZeroDivisionError.
Proof.
  unfold sweep. destruct (String.eqb opt "Manpower reduction (%)");
    reflexivity.
Qed.

Lemma last_in {X : Type} (l : list X) (d : X) : l <> [] -> In (last l d) l.
Proof.
  intros H. destruct (exists_last H) as (l' & a & ->).
  rewrite last_last. apply in_or_app. right. now left.
Qed.

(** ** The sensitivity sweep *)

(** C2, as stated, fails: on the sidebar defaults with [steps = 15] the
    stride is 2 and the loop yields 21 rows, not 15. *)
Lemma sweep_not_steps_rows :
  ~ ((2 <= 15)%Z ->
     returns (sweep 5000000 0.8 0.2 0.25 600000 "Manpower reduction (%)" 15)
       (fun rows =>
          List.length rows = Z.to_nat 15
          /\ map lever_of rows
             = map (fun i => Some (percent i))
                 (stride_points (Z.max 1 (40 / (15 - 1)))))).
Proof.
  intros H. destruct (H ltac:(lia)) as (rows & Hr & Hlen & _).
  vm_compute in Hr. injection Hr as <-.
  cbn in Hlen. discriminate Hlen.
Qed.

(** C2 (amended): for every base scenario and every [steps >= 2], with
    [s = max(1, floor(40 / (steps - 1)))], the sweep returns exactly
    [floor(40 / s) + 1] rows; their lever values are the integer
    percentage points of [0, 40] on the stride [s], in order, each
    divided by 100, and each row is [compute_roi] of the base scenario
    with that lever value. *)
Theorem sweep_samples (A L M G P : Q) (opt : string) (steps : Z) :
  (2 <= steps)%Z ->
  returns (sweep A L M G P opt steps)
    (fun rows =>
       List.length rows = Z.to_nat (40 / Z.max 1 (40 / (steps - 1)) + 1)
       /\ map lever_of rows
          = map (fun i => Some (percent i))
              (stride_points (Z.max 1 (40 / (steps - 1))))
       /\ Forall2 (fun i r => row_of A L M G P opt (percent i) r)
            (stride_points (Z.max 1 (40 / (steps - 1)))) rows).
Proof.
  intros H.
  assert (H1 : steps <> 1%Z) by lia.
  pose proof (stride_bounds steps H1) as Hb.
  pose proof (xs_eq steps H1) as Hx.
  rewrite py_max_int_max, Z.quot_div_nonneg in Hb, Hx by lia.
  set (s := Z.max 1 (40 / (steps - 1))) in *.
  destruct (sweep_rows A L M G P opt steps _ Hx) as (rows & Hr & HF).
  exists rows. split; [exact Hr |]. split; [| split].
  - rewrite <- (Forall2_length HF), length_map. apply py_range_length. lia.
  - rewrite (Forall2_levers _ _ _ HF), map_map.
    now rewrite py_range_stride_points.
  - rewrite <- py_range_stride_points by exact Hb.
    clear - HF. remember (map percent (py_range 0 41 s)) as l eqn:El.
    revert El. generalize (py_range 0 41 s) as zs.
    induction HF as [| x r l rows [_ Hrow] _ IH]; intros zs El;
      destruct zs as [| z zs]; try discriminate El.
    + constructor.
    + cbn [map] in El. injection El as -> ->.
      constructor; [exact Hrow | now apply IH].
Qed.

Lemma sweep_samples_witness :
  (2 <= 15)%Z
  /\ returns (sweep 5000000 0.8 0.2 0.25 600000 "Manpower reduction (%)" 15)
       (fun rows => List.length rows = 21%nat).
Proof.
  assert (H : (2 <= 15)%Z) by lia.
  split; [exact H |].
  destruct (sweep_samples 5000000 0.8 0.2 0.25 600000
              "Manpower reduction (%)" 15 H) as (rows & Hr & Hlen & _).
  exists rows. split; [exact Hr | exact Hlen].
Defined.

(** When [steps - 1] divides 40 the row count is [steps]. *)
Lemma sweep_count_on_divisors (steps : Z) :
  (2 <= steps)%Z -> (40 mod (steps - 1) = 0)%Z ->
  Z.to_nat (40 / Z.max 1 (40 / (steps - 1)) + 1) = Z.to_nat steps.
Proof.
  intros H Hd.
  assert (Hle : (steps - 1 <= 40)%Z).
  { destruct (Z.le_gt_cases (steps - 1) 40) as [Hc | Hc]; [exact Hc |].
    rewrite Z.mod_small in Hd by lia. discriminate Hd. }
  assert (Hk : (40 = (steps - 1) * (40 / (steps - 1)))%Z).
  { rewrite (Z.div_mod 40 (steps - 1)) at 1 by lia. lia. }
  assert (Hq : (1 <= 40 / (steps - 1))%Z).
  { apply Z.div_le_lower_bound; lia. }
  rewrite Z.max_r by lia.
  f_equal.
  set (q := (40 / (steps - 1))%Z) in *.
  assert (Hs : (40 / q = steps - 1)%Z); [| lia].
  symmetry. apply Z.div_unique_exact; lia.
Qed.

(** The truncated quotient and the floor give the same stride: they
    differ only below zero, where the stride is 1 either way. *)
Lemma stride_is_floor (steps : Z) :
  steps <> 1%Z ->
  py_max_int 1 (Z.quot 40 (steps - 1)) = Z.max 1 (40 / (steps - 1)).
Proof.
  intros H. rewrite py_max_int_max.
  destruct (Z.lt_ge_cases 0 (steps - 1)) as [Hpos | Hneg].
  - now rewrite Z.quot_div_nonneg by lia.
  - assert (Hq : (Z.quot 40 (steps - 1) <= 0)%Z).
    { replace (steps - 1)%Z with (- (1 - steps))%Z by lia.
      rewrite Z.quot_opp_r by lia.
      assert (0 <= Z.quot 40 (1 - steps))%Z by (apply Z.quot_pos; lia).
      lia. }
    assert (Hd : (40 / (steps - 1) <= 0)%Z).
    { pose proof (Z.div_mod 40 (steps - 1) ltac:(lia)) as E.
      pose proof (Z.mod_neg_bound 40 (steps - 1) ltac:(lia)) as B.
      nia. }
    lia.
Qed.

(** C7: for every base scenario and every step count the loop accepts
    (any [steps] but 1, where the stride expression divides by zero; the
    sweep takes [steps >= 2]), the rows come in strictly ascending
    lever value, the first lever value is 0, the last is at most 0.40,
    and there are as many rows as integer points of [0, 40] on the
    stride [max(1, floor(40 / (steps - 1)))]. *)
Theorem sweep_ascending (A L M G P : Q) (opt : string) (steps : Z) :
  steps <> 1%Z ->
  returns (sweep A L M G P opt steps)
    (fun rows =>
       exists levers,
         map lever_of rows = map Some levers
         /\ StronglySorted Qlt levers
         /\ (exists x0 tl, levers = x0 :: tl /\ x0 == 0)
         /\ last levers 1 <= 0.4
         /\ List.length rows
            = List.length (stride_points (Z.max 1 (40 / (steps - 1))))).
Proof.
  intros H1.
  pose proof (stride_bounds steps H1) as Hb.
  pose proof (xs_eq steps H1) as Hx.
  pose proof (stride_eq steps H1) as Hs.
  set (s := py_max_int 1 (Z.quot 40 (steps - 1))) in *.
  destruct (sweep_rows A L M G P opt steps _ Hx) as (rows & Hr & HF).
  exists rows. split; [exact Hr |].
  exists (map percent (py_range 0 41 s)).
  destruct (py_range_head s ltac:(lia)) as (tl & Htl).
  split; [| split; [| split; [| split]]].
  - exact (Forall2_levers _ _ _ HF).
  - apply (map_strictly_sorted Z.lt); [exact percent_lt |].
    apply py_range_sorted. lia.
  - rewrite Htl. cbn [map]. eexists _, _. split; reflexivity.
  - assert (Hin : In (last (map percent (py_range 0 41 s)) 1)
                    (map percent (py_range 0 41 s))).
    { apply last_in. rewrite Htl. discriminate. }
    apply in_map_iff in Hin. destruct Hin as (i & <- & Hi).
    apply py_range_bounds in Hi; [| lia].
    assert (Hle : percent i <= percent 40) by (apply percent_le; lia).
    assert (H40 : percent 40 == 0.4) by reflexivity.
    lra.
  - rewrite <- (stride_is_floor steps H1). fold s.
    rewrite <- (Forall2_length HF), length_map.
    now rewrite py_range_stride_points.
Qed.

Lemma sweep_ascending_witness :
  (5 <> 1)%Z
  /\ returns (sweep 5000000 0.8 0.2 0.25 600000 "Productivity gain (%)" 5)
       (fun rows =>
          map lever_of rows
          = map Some [percent 0; percent 10; percent 20; percent 30;
                      percent 40]).
Proof.
  assert (H : (5 <> 1)%Z) by discriminate.
  split; [exact H |].
  destruct (sweep_ascending 5000000 0.8 0.2 0.25 600000
              "Productivity gain (%)" 5 H) as (rows & Hr & _).
  exists rows. split; [exact Hr |].
  vm_compute in Hr. injection Hr as <-. reflexivity.
Defined.

(** ** The markdown loader *)




(** The other outcomes: a readable file is returned as it is, and what
    [read_text] or the existence check raises goes up to the caller. *)
Lemma load_markdown_outcomes (resolve : string -> string)
    (fs : filesystem) (relative_path : string) :
  match fs (resolve relative_path) with
  | Found (TextFile content) =>
      load_markdown resolve fs relative_path = Return content
  | Found Undecodable =>
      load_markdown resolve fs relative_path = Raise UnicodeDecodeError
  | Found Unreadable | StatError =>
      load_markdown resolve fs relative_path = Raise OSError
  | Missing => exists text, load_markdown resolve fs relative_path = Return text
  end.
Proof.
  unfold load_markdown.
  destruct (fs (resolve relative_path)) as [[content | |] | |];
    try reflexivity.
  eexists. reflexivity.
Qed.

(** * Further properties of the model *)

(** ** Payback and ROI *)

Lemma py_max_mono (a b c : Q) : a <= b -> py_max a c <= py_max b c.
Proof.
  intros H. unfold py_max.
  destruct (Qlt_bool a c) eqn:Ea; destruct (Qlt_bool b c) eqn:Eb;
    try apply Qlt_bool_iff in Ea; try apply Qlt_bool_iff in Eb;
    try apply Qlt_bool_false_iff in Ea; try apply Qlt_bool_false_iff in Eb;
    lra.
Qed.


(** A non-negative numerator over a larger positive divisor gives a
    smaller quotient. *)
Lemma Qdiv_antitone (a b c : Q) :
  0 <= a -> 0 < b -> b <= c -> a / c <= a / b.
Proof.
  intros Ha Hb Hbc.
  apply Qle_shift_div_r; [lra |].
  assert (Hz : 0 <= a / b).
  { unfold Qdiv. apply Qmult_le_0_compat; [exact Ha |].
    apply Qinv_le_0_compat. lra. }
  assert (He : a / b * b == a) by (field; lra).
  assert (Hm : a / b * b <= a / b * c).
  { rewrite !(Qmult_comm (a / b)). apply Qmult_le_compat_r; assumption. }
  lra.
Qed.

Lemma Qdiv_mono_l (a b c : Q) : 0 < c -> a <= b -> a / c <= b / c.
Proof.
  intros Hc H. unfold Qdiv. apply Qmult_le_compat_r; [exact H |].
  apply Qinv_le_0_compat. lra.
Qed.

(** When the returned savings are at least 1 and the platform cost is
    positive, the divisor is not floored: the returned payback is
    [12 * (platform_cost / savings)]. *)
Theorem payback_unclamped (A L M G P : Q) :
  returns (compute_roi A L M G P)
    (fun r =>
       exists s pb,
         dict_get "Savings" r = Some s
         /\ dict_get "Payback (months)" r = Some pb
         /\ (1 <= s -> 0 < P -> pb == 12 * (P / s))).
Proof.
  returned A L M G P. eexists _, _. repeat split. cbn. intros Hs HP.
  assert (Hl : Qlt_bool 0 P = true) by (apply Qlt_bool_iff; exact HP).
  rewrite Hl, (py_max_free _ 1 Hs). reflexivity.
Qed.

Lemma payback_unclamped_witness :
  returns (compute_roi 5000000 0.8 0.3 0.25 600000)
    (fun r => exists s pb,
         dict_get "Savings" r = Some s
         /\ dict_get "Payback (months)" r = Some pb
         /\ 1 <= s /\ pb == 12 * (600000 / s)).
Proof.
  destruct (payback_unclamped 5000000 0.8 0.3 0.25 600000)
    as (r & Hr & s & pb & Hs & Hpb & H).
  exists r. split; [exact Hr |]. exists s, pb.
  split; [exact Hs | split; [exact Hpb |]].
  assert (Hle : 1 <= s).
  { vm_compute in Hr. injection Hr as <-. cbn in Hs.
    injection Hs as <-. vm_compute. discriminate. }
  split; [exact Hle | apply (H Hle); reflexivity].
Defined.



(** ** A deeper manpower cut never hurts *)

(** On a non-negative baseline and labor share, raising the manpower
    reduction does not lower the savings, does not raise the new cost
    and, with a positive platform cost, does not lower the ROI nor
    lengthen the payback. *)
Theorem manpower_reduction_monotone (A L M M' G P : Q) :
  0 <= A -> 0 <= L -> M <= M' ->
  exists f f',
    compute_roi_body A L M G P = Return f
    /\ compute_roi_body A L M' G P = Return f'
    /\ savings f <= savings f'
    /\ new_ops_cost f' <= new_ops_cost f
    /\ (0 < P -> roi f <= roi f' /\ payback_months f' <= payback_months f).
Proof.
  intros HA HL HM.
  assert (HAL : 0 <= A * L) by (apply Qmult_le_0_compat; assumption).
  assert (Hd : 0 <= A * L * (M' - M))
    by (apply Qmult_le_0_compat; [exact HAL | lra]).
  eexists _, _. split; [apply compute_roi_body_eq |].
  split; [apply compute_roi_body_eq |].
  cbn [savings new_ops_cost roi payback_months].
  assert (Hs : A - (A * L - A * L * M + A * (1 - L) + P)
               <= A - (A * L - A * L * M' + A * (1 - L) + P)).
  { ring_simplify in Hd. lra. }
  split; [exact Hs |]. split; [lra |].
  intros HP.
  assert (Ht : truthy P = true) by (apply truthy_iff; lra).
  assert (Hl : Qlt_bool 0 P = true) by (apply Qlt_bool_iff; exact HP).
  rewrite Ht, Hl. split.
  - apply Qdiv_mono_l; assumption.
  - apply Qmult_le_l; [reflexivity |].
    apply Qdiv_antitone; [lra | |].
    + pose proof (py_max_ge_r
                    (A - (A * L - A * L * M + A * (1 - L) + P)) 1). lra.
    + apply py_max_mono. exact Hs.
Qed.

Lemma manpower_reduction_monotone_witness :
  exists f f',
    compute_roi_body 5000000 0.8 0.2 0.25 600000 = Return f
    /\ compute_roi_body 5000000 0.8 0.3 0.25 600000 = Return f'
    /\ savings f <= savings f'
    /\ payback_months f' <= payback_months f.
Proof.
  destruct (manpower_reduction_monotone 5000000 0.8 0.2 0.3 0.25 600000)
    as (f & f' & Hb & Hb' & Hs & _ & H); try discriminate.
  exists f, f'. repeat (split; [assumption |]).
  apply H. reflexivity.
Defined.

(** ** The rows of the sensitivity loop *)

Lemma row_of_shape (A L M G P : Q) (opt : string) (x : Q) (r : dict) :
  row_of A L M G P opt x r ->
  exists f,
    (if String.eqb opt "Manpower reduction (%)"
     then compute_roi_body A L x G P
     else compute_roi_body A L M x P) = Return f
    /\ r = results f ++ [("x"%string, x)].
Proof.
  intros (d & Hd & ->).
  destruct (String.eqb opt "Manpower reduction (%)").
  - destruct (compute_roi_eq A L x G P) as (f & Hb & Hd').
    rewrite Hd' in Hd. injection Hd as <-. exists f. now split.
  - destruct (compute_roi_eq A L M x P) as (f & Hb & Hd').
    rewrite Hd' in Hd. injection Hd as <-. exists f. now split.
Qed.

Lemma Forall2_Forall_r {X Y : Type} (R : X -> Y -> Prop) (Pr : Y -> Prop)
    (l : list X) (l' : list Y) :
  (forall x y, R x y -> Pr y) -> Forall2 R l l' -> Forall Pr l'.
Proof.
  intros H HF. induction HF; constructor; eauto.
Qed.

Lemma Forall2_column (R : Q -> dict -> Prop) (k : string) (g : Q -> Q)
    (l : list Q) (rows : list dict) :
  (forall x r, R x r -> dict_get k r = Some (g x)) ->
  Forall2 R l rows -> column k rows = map Some (map g l).
Proof.
  intros H HF. unfold column.
  induction HF as [| x r l rows Hxr _ IH]; cbn [map].
  - reflexivity.
  - now rewrite (H x r Hxr), IH.
Qed.

(** The loop returns once the stride is there; [s] is the stride. *)
Lemma sweep_returns (A L M G P : Q) (opt : string) (steps : Z) :
  steps <> 1%Z ->
  exists rows,
    sweep A L M G P opt steps = Return rows
    /\ Forall2 (fun x r => lever_of r = Some x /\ row_of A L M G P opt x r)
         (map percent
            (py_range 0 41 (py_max_int 1 (Z.quot 40 (steps - 1))))) rows.
Proof.
  intros H. apply sweep_rows. now apply xs_eq.
Qed.

(** The loop raises for one step count only: [steps = 1], where
    [40/(steps-1)] divides by zero.  Every other integer gives rows. *)
Theorem sweep_raises_iff (A L M G P : Q) (opt : string) (steps : Z) :
  (exists e, sweep A L M G P opt steps = Raise e) <-> steps = 1%Z.
Proof.
  split.
  - intros (e & He).
    destruct (Z.eq_dec steps 1) as [H1 | H1]; [exact H1 |].
    destruct (sweep_returns A L M G P opt steps H1) as (rows & Hr & _).
    rewrite Hr in He. discriminate He.
  - intros ->. exists ZeroDivisionError. apply sweep_raises_at_one.
Qed.

(** Every row holds the ten entries of [compute_roi] followed by ["x"];
    the baseline, the labor share, the platform cost and the lever that
    is not swept keep the values passed in, and the swept lever's own
    entry equals ["x"]. *)
Theorem sweep_row_entries (A L M G P : Q) (opt : string) (steps : Z) :
  steps <> 1%Z ->
  returns (sweep A L M G P opt steps)
    (fun rows =>
       rows <> []
       /\ Forall
            (fun r =>
               map fst r
               = [ "Baseline cost"; "New cost"; "Savings"; "Platform cost";
                   "ROI (Savings / Platform)"; "Payback (months)";
                   "Labor share"; "Manpower reduction (%)";
                   "Productivity gain (%)";
                   "Throughput multiplier (1+prod)"; "x" ]%string
               /\ dict_get "Baseline cost" r = Some A
               /\ dict_get "Labor share" r = Some L
               /\ dict_get "Platform cost" r = Some P
               /\ (if String.eqb opt "Manpower reduction (%)"
                   then dict_get "Manpower reduction (%)" r = dict_get "x" r
                        /\ dict_get "Productivity gain (%)" r = Some G
                   else dict_get "Productivity gain (%)" r = dict_get "x" r
                        /\ dict_get "Manpower reduction (%)" r = Some M))
            rows).
Proof.
  intros H1. destruct (sweep_returns A L M G P opt steps H1) as (rows & Hr & HF).
  exists rows. split; [exact Hr |]. split.
  - destruct (py_range_head (py_max_int 1 (Z.quot 40 (steps - 1))))
      as (tl & Htl); [pose proof (stride_bounds steps H1); lia |].
    rewrite Htl in HF. inversion HF. discriminate.
  - eapply Forall2_Forall_r; [| exact HF].
    intros x r [_ Hrow]. cbv beta.
    apply row_of_shape in Hrow. destruct Hrow as (f & Hb & ->).
    destruct (String.eqb opt "Manpower reduction (%)");
      run_body Hb; repeat split.
Qed.

Lemma sweep_row_entries_witness :
  returns (sweep 5000000 0.8 0.2 0.25 600000 "Manpower reduction (%)" 15)
    (fun rows =>
       Forall (fun r => dict_get "Manpower reduction (%)" r = dict_get "x" r)
         rows).
Proof.
  destruct (sweep_row_entries 5000000 0.8 0.2 0.25 600000
              "Manpower reduction (%)" 15) as (rows & Hr & _ & HF);
    [discriminate |].
  exists rows. split; [exact Hr |].
  eapply Forall_impl; [| exact HF].
  cbv beta. intros r (_ & _ & _ & _ & H & _). exact H.
Defined.

(** In the productivity sweep every row carries the new cost, savings,
    ROI and payback of the base scenario: the charted lines are flat. *)
Theorem productivity_sweep_flat (A L M G P : Q) (opt : string) (steps : Z) :
  opt <> "Manpower reduction (%)"%string ->
  steps <> 1%Z ->
  exists f,
    compute_roi_body A L M G P = Return f
    /\ returns (sweep A L M G P opt steps)
         (fun rows =>
            Forall
              (fun r =>
                 dict_get "New cost" r = Some (new_ops_cost f)
                 /\ dict_get "Savings" r = Some (savings f)
                 /\ dict_get "ROI (Savings / Platform)" r = Some (roi f)
                 /\ dict_get "Payback (months)" r = Some (payback_months f))
              rows).
Proof.
  intros Hopt H1.
  eexists. split; [apply compute_roi_body_eq |].
  destruct (sweep_returns A L M G P opt steps H1) as (rows & Hr & HF).
  exists rows. split; [exact Hr |].
  eapply Forall2_Forall_r; [| exact HF].
  intros x r [_ Hrow]. cbv beta.
  apply row_of_shape in Hrow. destruct Hrow as (f & Hb & ->).
  apply String.eqb_neq in Hopt. rewrite Hopt in Hb.
  run_body Hb. repeat split.
Qed.

Lemma productivity_sweep_flat_witness :
  exists f,
    compute_roi_body 5000000 0.8 0.2 0.25 600000 = Return f
    /\ returns (sweep 5000000 0.8 0.2 0.25 600000 "Productivity gain (%)" 15)
         (fun rows =>
            Forall (fun r => dict_get "Savings" r = Some (savings f)) rows).
Proof.
  destruct (productivity_sweep_flat 5000000 0.8 0.2 0.25 600000
              "Productivity gain (%)" 15) as (f & Hb & rows & Hr & HF);
    try discriminate.
  exists f. split; [exact Hb |].
  exists rows. split; [exact Hr |].
  eapply Forall_impl; [| exact HF].
  cbv beta. intros r (_ & H & _). exact H.
Defined.

(** ** The manpower sweep is monotone *)

Lemma savings_expr_mono (A L M M' P : Q) :
  0 <= A -> 0 <= L -> M <= M' ->
  A - (A * L - A * L * M + A * (1 - L) + P)
  <= A - (A * L - A * L * M' + A * (1 - L) + P).
Proof.
  intros HA HL HM.
  assert (Hd : 0 <= A * L * (M' - M)).
  { apply Qmult_le_0_compat; [apply Qmult_le_0_compat; assumption | lra]. }
  ring_simplify in Hd. lra.
Qed.

Lemma roi_expr_mono (s s' P : Q) :
  0 < P -> s <= s' ->
  (if truthy P then s / P else 0) <= (if truthy P then s' / P else 0).
Proof.
  intros HP Hs.
  assert (Ht : truthy P = true) by (apply truthy_iff; lra).
  rewrite Ht. now apply Qdiv_mono_l.
Qed.

Lemma payback_expr_antitone (s s' P : Q) :
  0 < P -> s <= s' ->
  (if Qlt_bool 0 P then 12 * (P / py_max s' 1) else 0)
  <= (if Qlt_bool 0 P then 12 * (P / py_max s 1) else 0).
Proof.
  intros HP Hs.
  assert (Hl : Qlt_bool 0 P = true) by (apply Qlt_bool_iff; exact HP).
  rewrite Hl. apply Qmult_le_l; [reflexivity |].
  apply Qdiv_antitone; [lra | | now apply py_max_mono].
  pose proof (py_max_ge_r s 1). lra.
Qed.

(** With a non-negative baseline and labor share and a positive platform
    cost, the manpower sweep charts savings and ROI that never fall and a
    payback that never rises from one row to the next. *)
Theorem manpower_sweep_monotone (A L M G P : Q) (steps : Z) :
  0 <= A -> 0 <= L -> 0 < P -> steps <> 1%Z ->
  returns (sweep A L M G P "Manpower reduction (%)" steps)
    (fun rows =>
       exists sv rv pv,
         column "Savings" rows = map Some sv
         /\ StronglySorted Qle sv
         /\ column "ROI (Savings / Platform)" rows = map Some rv
         /\ StronglySorted Qle rv
         /\ column "Payback (months)" rows = map Some pv
         /\ StronglySorted (fun a b => b <= a) pv).
Proof.
  intros HA HL HP H1.
  destruct (sweep_returns A L M G P "Manpower reduction (%)" steps H1)
    as (rows & Hr & HF).
  exists rows. split; [exact Hr |].
  pose proof (stride_bounds steps H1) as Hb.
  set (s := py_max_int 1 (Z.quot 40 (steps - 1))) in *.
  assert (Hl : StronglySorted Qlt (map percent (py_range 0 41 s))).
  { apply (map_strictly_sorted Z.lt); [exact percent_lt |].
    apply py_range_sorted. lia. }
  set (l := map percent (py_range 0 41 s)) in *.
  set (gs := fun x : Q => A - (A * L - A * L * x + A * (1 - L) + P)).
  set (gr := fun x : Q => if truthy P then gs x / P else 0).
  set (gp := fun x : Q =>
               if Qlt_bool 0 P then 12 * (P / py_max (gs x) 1) else 0).
  assert (Hgs : forall a b, a < b -> gs a <= gs b).
  { intros a b Hab. apply savings_expr_mono; try assumption. lra. }
  exists (map gs l), (map gr l), (map gp l).
  split; [| split; [| split; [| split; [| split]]]].
  - apply (Forall2_column _ _ gs _ _) with (2 := HF).
    intros x r [_ Hrow]. apply row_of_shape in Hrow.
    destruct Hrow as (f & Hf & ->). cbn [String.eqb Ascii.eqb] in Hf.
    run_body Hf. reflexivity.
  - apply (map_strictly_sorted Qlt); [exact Hgs | exact Hl].
  - apply (Forall2_column _ _ gr _ _) with (2 := HF).
    intros x r [_ Hrow]. apply row_of_shape in Hrow.
    destruct Hrow as (f & Hf & ->). cbn [String.eqb Ascii.eqb] in Hf.
    run_body Hf. reflexivity.
  - apply (map_strictly_sorted Qlt); [| exact Hl].
    intros a b Hab. apply roi_expr_mono; auto.
  - apply (Forall2_column _ _ gp _ _) with (2 := HF).
    intros x r [_ Hrow]. apply row_of_shape in Hrow.
    destruct Hrow as (f & Hf & ->). cbn [String.eqb Ascii.eqb] in Hf.
    run_body Hf. reflexivity.
  - apply (map_strictly_sorted Qlt); [| exact Hl].
    intros a b Hab. apply payback_expr_antitone; auto.
Qed.

Lemma manpower_sweep_monotone_witness :
  returns (sweep 5000000 0.8 0.2 0.25 600000 "Manpower reduction (%)" 5)
    (fun rows =>
       exists sv, column "Savings" rows = map Some sv
                  /\ StronglySorted Qle sv).
Proof.
  destruct (manpower_sweep_monotone 5000000 0.8 0.2 0.25 600000 5)
    as (rows & Hr & sv & rv & pv & Hs & Hss & _); try discriminate.
  - reflexivity.
  - exists rows. split; [exact Hr |]. exists sv. now split.
Defined.

(** ** How many rows, and where *)

Lemma sweep_length (A L M G P : Q) (opt : string) (steps : Z) :
  steps <> 1%Z ->
  exists rows,
    sweep A L M G P opt steps = Return rows
    /\ List.length rows
       = Z.to_nat (40 / py_max_int 1 (Z.quot 40 (steps - 1)) + 1).
Proof.
  intros H1. destruct (sweep_returns A L M G P opt steps H1) as (rows & Hr & HF).
  exists rows. split; [exact Hr |].
  rewrite <- (Forall2_length HF), length_map. apply py_range_length.
  pose proof (stride_bounds steps H1). lia.
Qed.

Lemma stride_count_bounds (steps : Z) :
  (2 <= steps <= 41)%Z ->
  (steps <= 40 / py_max_int 1 (Z.quot 40 (steps - 1)) + 1 <= 41)%Z.
Proof.
  intros Hs. rewrite py_max_int_max, Z.quot_div_nonneg by lia.
  assert (Hq : (1 <= 40 / (steps - 1))%Z)
    by (apply Z.div_le_lower_bound; lia).
  rewrite Z.max_r by lia.
  set (q := (40 / (steps - 1))%Z) in *.
  assert (Hm : ((steps - 1) * q <= 40)%Z) by (apply Z.mul_div_le; lia).
  assert (Hlo : (steps - 1 <= 40 / q)%Z)
    by (apply Z.div_le_lower_bound; lia).
  assert (Hhi : (40 / q <= 40)%Z) by (apply Z.div_le_upper_bound; lia).
  lia.
Qed.

(** For [steps] from 2 to 41 the loop yields at least [steps] rows and at
    most 41; for [steps >= 41] and for [steps <= 0] the stride is 1 and
    it yields all 41 percentage points. *)
Theorem sweep_row_count (A L M G P : Q) (opt : string) (steps : Z) :
  steps <> 1%Z ->
  returns (sweep A L M G P opt steps)
    (fun rows =>
       ((2 <= steps <= 41)%Z ->
        (steps <= Z.of_nat (List.length rows) <= 41)%Z)
       /\ ((41 <= steps)%Z \/ (steps <= 0)%Z -> List.length rows = 41%nat)).
Proof.
  intros H1. destruct (sweep_length A L M G P opt steps H1) as (rows & Hr & Hlen).
  exists rows. split; [exact Hr |]. rewrite Hlen. split.
  - intros Hs. pose proof (stride_count_bounds steps Hs). lia.
  - intros Hs. rewrite py_max_int_max.
    assert (Hq : (Z.quot 40 (steps - 1) <= 1)%Z).
    { destruct Hs as [Hs | Hs].
      - rewrite Z.quot_div_nonneg by lia.
        apply Z.div_le_upper_bound; lia.
      - replace (steps - 1)%Z with (- (1 - steps))%Z by lia.
        rewrite Z.quot_opp_r by lia.
        assert (0 <= Z.quot 40 (1 - steps))%Z by (apply Z.quot_pos; lia).
        lia. }
    rewrite Z.max_l by lia. reflexivity.
Qed.

Lemma sweep_row_count_witness :
  returns (sweep 5000000 0.8 0.2 0.25 600000 "Manpower reduction (%)" 15)
    (fun rows => (15 <= Z.of_nat (List.length rows) <= 41)%Z).
Proof.
  destruct (sweep_row_count 5000000 0.8 0.2 0.25 600000
              "Manpower reduction (%)" 15) as (rows & Hr & H & _);
    [discriminate |].
  exists rows. split; [exact Hr |]. apply H. lia.
Defined.

(** Row [i] carries the lever value [i * s / 100], [s] being the stride:
    the rows are evenly spaced from 0 upward, and none lies above 0.40. *)
Theorem sweep_even_spacing (A L M G P : Q) (opt : string) (steps : Z) :
  steps <> 1%Z ->
  exists s,
    stride steps = Return s
    /\ returns (sweep A L M G P opt steps)
         (fun rows =>
            map lever_of rows
            = map (fun i => Some (percent (Z.of_nat i * s)))
                (seq 0 (List.length rows))
            /\ Forall (fun i => 0 <= percent (Z.of_nat i * s) <= 0.4)
                 (seq 0 (List.length rows))).
Proof.
  intros H1. exists (py_max_int 1 (Z.quot 40 (steps - 1))).
  split; [now apply stride_eq |].
  destruct (sweep_returns A L M G P opt steps H1) as (rows & Hr & HF).
  exists rows. split; [exact Hr |].
  pose proof (stride_bounds steps H1) as Hb.
  set (s := py_max_int 1 (Z.quot 40 (steps - 1))) in *.
  assert (Hlen : List.length rows = range_len 0 41 s).
  { rewrite <- (Forall2_length HF). unfold py_range.
    now rewrite !length_map, length_seq. }
  split.
  - rewrite (Forall2_levers _ _ _ HF), Hlen. unfold py_range.
    rewrite !map_map. apply map_ext. intros i. reflexivity.
  - rewrite Hlen. apply Forall_forall. intros i Hi.
    assert (Hin : In (0 + Z.of_nat i * s)%Z (py_range 0 41 s)).
    { unfold py_range. apply in_map_iff. exists i. now split. }
    apply py_range_bounds in Hin; [| lia].
    rewrite Z.add_0_l in Hin.
    pose proof (percent_le 0 (Z.of_nat i * s) ltac:(lia)) as Hlo.
    pose proof (percent_le (Z.of_nat i * s) 40 ltac:(lia)) as Hhi.
    assert (H0 : percent 0 == 0) by reflexivity.
    assert (H40 : percent 40 == 0.4) by reflexivity.
    lra.
Qed.

Lemma sweep_even_spacing_witness :
  exists s,
    stride 15 = Return s
    /\ returns (sweep 5000000 0.8 0.2 0.25 600000 "Manpower reduction (%)" 15)
         (fun rows =>
            map lever_of rows
            = map (fun i => Some (percent (Z.of_nat i * s)))
                (seq 0 (List.length rows))).
Proof.
  destruct (sweep_even_spacing 5000000 0.8 0.2 0.25 600000
              "Manpower reduction (%)" 15) as (s & Hs & rows & Hr & H & _);
    [discriminate |].
  exists s. split; [exact Hs |]. exists rows. now split.
Defined.

(** ** One run of the dashboard *)

Lemma sidebar_bounds (w : widgets) :
  in_range w ->
  500000 <= in_annual_ops_cost (sidebar w)
  /\ 0.30 <= in_labor_share (sidebar w) <= 0.95
  /\ 0 <= in_manpower_reduction (sidebar w) <= 0.50
  /\ 0 <= in_productivity_gain (sidebar w) <= 0.40
  /\ 100000 <= in_platform_cost (sidebar w).
Proof.
  intros (HA & HL & HM & HG & HP & _).
  rewrite Zle_Qle in HA, HP.
  destruct w as [a l m g p mall precinct opt steps].
  cbn in HA, HL, HM, HG, HP.
  unfold sidebar.
  cbn [w_annual_ops_cost w_labor_share w_manpower_reduction
       w_productivity_gain w_platform_cost w_mall w_precinct].
  destruct mall, precinct;
    cbn [in_annual_ops_cost in_labor_share in_manpower_reduction
         in_productivity_gain in_platform_cost];
    repeat split; try assumption; try discriminate; lra.
Qed.

(** The presets keep the script variables inside the bounds the widgets
    promise, and never touch the baseline cost. *)
Theorem presets_stay_in_range (w : widgets) :
  in_range w ->
  in_annual_ops_cost (sidebar w) = inject_Z (w_annual_ops_cost w)
  /\ 500000 <= in_annual_ops_cost (sidebar w)
  /\ 0.30 <= in_labor_share (sidebar w) <= 0.95
  /\ 0 <= in_manpower_reduction (sidebar w) <= 0.50
  /\ 0 <= in_productivity_gain (sidebar w) <= 0.40
  /\ 100000 <= in_platform_cost (sidebar w).
Proof.
  intros H. split; [| now apply sidebar_bounds].
  destruct w as [a l m g p [] [] opt steps]; reflexivity.
Qed.

Lemma presets_stay_in_range_witness :
  0.30 <= in_labor_share
            (sidebar (mkWidgets 5000000 0.8 0.2 0.25 600000 false true
                        "Manpower reduction (%)" 15)) <= 0.95.
Proof.
  apply (presets_stay_in_range
           (mkWidgets 5000000 0.8 0.2 0.25 600000 false true
              "Manpower reduction (%)" 15)).
  unfold in_range. cbn.
  repeat split; try discriminate; try lia. now left.
Defined.

(** On the run a preset button is pressed, the calculator and the
    sensitivity rows no longer depend on the three sliders and the
    platform input: two runs with the same baseline and buttons agree. *)
Theorem preset_overrides_sliders (w w' : widgets) :
  w_annual_ops_cost w = w_annual_ops_cost w' ->
  w_mall w = w_mall w' ->
  w_precinct w = w_precinct w' ->
  w_mall w || w_precinct w = true ->
  sidebar w = sidebar w'
  /\ tab_calc w = tab_calc w'
  /\ (w_opt w = w_opt w' -> w_steps w = w_steps w' ->
      tab_sens w = tab_sens w').
Proof.
  intros HA Hm Hp Hb.
  assert (Hs : sidebar w = sidebar w').
  { destruct w as [a l m g p mall precinct opt steps].
    destruct w' as [a' l' m' g' p' mall' precinct' opt' steps'].
    cbn in HA, Hm, Hp, Hb. subst a' mall' precinct'.
    destruct mall, precinct; try discriminate Hb; reflexivity. }
  split; [exact Hs |]. unfold tab_calc, tab_sens. rewrite Hs.
  split; [reflexivity |]. intros -> ->. reflexivity.
Qed.

Lemma preset_overrides_sliders_witness :
  tab_calc (mkWidgets 5000000 0.8 0.2 0.25 600000 false true
              "Manpower reduction (%)" 15)
  = tab_calc (mkWidgets 5000000 0.5 0.4 0.1 100000 false true
                "Productivity gain (%)" 5).
Proof.
  apply (preset_overrides_sliders
           (mkWidgets 5000000 0.8 0.2 0.25 600000 false true
              "Manpower reduction (%)" 15)
           (mkWidgets 5000000 0.5 0.4 0.1 100000 false true
              "Productivity gain (%)" 5)); reflexivity.
Defined.



(** ** Stores and lookups *)

(** A store followed by a lookup of the same key gives the stored value;
    every other key reads as before; a store to an absent key appends
    the entry, and a store to a present key leaves the key order as it
    is. *)
Theorem dict_set_get (k : string) (v : Q) (d : dict) :
  dict_get k (dict_set k v d) = Some v
  /\ (forall k', k' <> k -> dict_get k' (dict_set k v d) = dict_get k' d)
  /\ (dict_get k d = None -> dict_set k v d = d ++ [(k, v)])
  /\ (dict_get k d <> None -> map fst (dict_set k v d) = map fst d).
Proof.
  induction d as [| [k0 v0] d (IH1 & IH2 & IH3 & IH4)]; cbn.
  - rewrite String.eqb_refl. repeat split; try reflexivity.
    + intros k' Hk. apply String.eqb_neq in Hk. now rewrite Hk.
    + intros H. now contradiction H.
  - destruct (String.eqb k k0) eqn:E; cbn.
    + apply String.eqb_eq in E. subst k0. rewrite String.eqb_refl.
      repeat split; try reflexivity.
      * intros k' Hk. apply String.eqb_neq in Hk. now rewrite Hk.
      * discriminate.
    + rewrite E. repeat split.
      * exact IH1.
      * intros k' Hk. destruct (String.eqb k' k0); [reflexivity | now apply IH2].
      * intros H. now rewrite IH3.
      * intros H. now rewrite IH4.
Qed.

Lemma dict_set_get_witness :
  dict_get "x" (dict_set "x" 0.2 [("Savings"%string, 200000)]) = Some 0.2
  /\ dict_set "x" 0.2 [("Savings"%string, 200000)]
     = [("Savings"%string, 200000); ("x"%string, 0.2)].
Proof.
  destruct (dict_set_get "x" 0.2 [("Savings"%string, 200000)])
    as (H1 & _ & H3 & _).
  split; [exact H1 | apply H3; reflexivity].
Defined.

(** ** The chart's columns *)

Lemma mem_string_fold (c : string) (ks acc : list string) :
  mem_string c acc = true ->
  mem_string c
    (fold_left (fun acc k => if mem_string k acc then acc else acc ++ [k])
       ks acc) = true.
Proof.
  revert acc. induction ks as [| k ks IH]; intros acc H; cbn [fold_left].
  - exact H.
  - apply IH. destruct (mem_string k acc); [exact H |].
    unfold mem_string in *. rewrite existsb_app, H. reflexivity.
Qed.

Lemma frame_columns_keeps (c : string) (rows : list dict) (seen : list string) :
  mem_string c seen = true -> mem_string c (frame_columns rows seen) = true.
Proof.
  revert seen. induction rows as [| r rows IH]; intros seen H;
    cbn [frame_columns].
  - exact H.
  - apply IH. now apply mem_string_fold.
Qed.

(** Selecting the chart's four columns from the rows of the loop finds
    every label (no [KeyError]) and every cell holds a number (no NaN);
    the same selection on an empty list of rows would not find its
    labels, and the loop never returns one. *)
Theorem chart_columns_present (A L M G P : Q) (opt : string) (steps : Z) :
  steps <> 1%Z ->
  frame_select chart_columns [] = None
  /\ returns (sweep A L M G P opt steps)
       (fun rows =>
          exists chart,
            frame_select chart_columns rows = Some chart
            /\ Forall2
                 (fun r c =>
                    exists x s ro pb,
                      c = [Some x; Some s; Some ro; Some pb]
                      /\ lever_of r = Some x
                      /\ dict_get "Savings" r = Some s
                      /\ dict_get "ROI (Savings / Platform)" r = Some ro
                      /\ dict_get "Payback (months)" r = Some pb)
                 rows chart).
Proof.
  intros H1. split; [reflexivity |].
  destruct (sweep_returns A L M G P opt steps H1) as (rows & Hr & HF).
  exists rows. split; [exact Hr |].
  assert (Hshape : Forall (fun r => exists f x,
                              r = results f ++ [("x"%string, x)]) rows).
  { eapply Forall2_Forall_r; [| exact HF].
    intros x r [_ Hrow]. cbv beta. apply row_of_shape in Hrow.
    destruct Hrow as (f & _ & ->). eauto. }
  assert (Hne : rows <> []).
  { destruct (py_range_head (py_max_int 1 (Z.quot 40 (steps - 1))))
      as (tl & Htl); [pose proof (stride_bounds steps H1); lia |].
    rewrite Htl in HF. inversion HF. discriminate. }
  clear HF Hr.
  eexists. split.
  - unfold frame_select.
    destruct rows as [| r0 rows]; [now contradiction Hne |].
    inversion Hshape as [| ? ? Hr0 _]; subst.
    destruct Hr0 as (f & x & ->). cbn [frame_columns].
    assert (Hall : forallb
                       (fun c => mem_string c
                                   (frame_columns rows
                                      (fold_left
                                         (fun acc k =>
                                            if mem_string k acc then acc
                                            else acc ++ [k])
                                         (map fst
                                            (results f ++ [("x"%string, x)]))
                                         [])))
                       chart_columns = true).
      { cbn [chart_columns forallb].
        repeat (rewrite frame_columns_keeps by reflexivity).
        reflexivity. }
      rewrite Hall. reflexivity.
  - clear Hne.
    induction Hshape as [| r rows (f & x & ->) _ IH]; cbn [map].
    + constructor.
    + constructor; [| exact IH].
      eexists _, _, _, _. repeat split.
Qed.

Lemma chart_columns_present_witness :
  returns (sweep 5000000 0.8 0.2 0.25 600000 "Productivity gain (%)" 5)
    (fun rows => exists chart,
         frame_select chart_columns rows = Some chart
         /\ List.length chart = 5%nat).
Proof.
  destruct (chart_columns_present 5000000 0.8 0.2 0.25 600000
              "Productivity gain (%)" 5) as (_ & rows & Hr & chart & Hc & HF);
    [discriminate |].
  exists rows. split; [exact Hr |]. exists chart. split; [exact Hc |].
  rewrite <- (Forall2_length HF).
  vm_compute in Hr. injection Hr as <-. reflexivity.
Defined.

(** ** Thousands grouping *)

Lemma group3_step (a b c d : ascii) (rest : list ascii) :
  group3 (a :: b :: c :: d :: rest)
  = a :: b :: c :: ","%char :: group3 (d :: rest).
Proof. reflexivity. Qed.

(** Induction along the recursion of [group3]. *)
Lemma group3_induction (Pr : list ascii -> Prop) :
  (forall r, (List.length r <= 3)%nat -> Pr r) ->
  (forall a b c d rest, Pr (d :: rest) -> Pr (a :: b :: c :: d :: rest)) ->
  forall r, Pr r.
Proof.
  intros Hbase Hstep r.
  assert (H : forall n r, (List.length r <= n)%nat -> Pr r).
  { induction n as [| n IH]; intros r0 Hr0.
    - apply Hbase. lia.
    - destruct r0 as [| a [| b [| c [| d rest]]]];
        try (apply Hbase; cbn; lia).
      apply Hstep. apply IH. cbn in Hr0 |- *. lia. }
  apply (H (List.length r)). lia.
Qed.

Lemma group3_short (r : list ascii) :
  (List.length r <= 3)%nat -> group3 r = r.
Proof.
  intros H. destruct r as [| a [| b [| c [| d rest]]]];
    try reflexivity. cbn in H. lia.
Qed.

Lemma group3_strip (r : list ascii) :
  filter not_comma (group3 r) = filter not_comma r.
Proof.
  induction r as [r Hr | a b c d rest IH] using group3_induction.
  - now rewrite group3_short.
  - rewrite group3_step. cbn [filter].
    change (not_comma ","%char) with false. cbv iota.
    rewrite IH. reflexivity.
Qed.

Lemma group3_length (r : list ascii) :
  List.length (group3 r)
  = (List.length r + (List.length r - 1) / 3)%nat.
Proof.
  induction r as [r Hr | a b c d rest IH] using group3_induction.
  - rewrite group3_short by exact Hr.
    assert (E : ((List.length r - 1) / 3 = 0)%nat)
      by (apply Nat.div_small; lia).
    lia.
  - rewrite group3_step. cbn [List.length]. rewrite IH. cbn [List.length].
    replace (S (S (S (S (List.length rest)))) - 1)%nat
      with (S (List.length rest) - 1 + 1 * 3)%nat by lia.
    rewrite Nat.div_add by lia. lia.
Qed.

Lemma filter_all {X : Type} (p : X -> bool) (l : list X) :
  Forall (fun x => p x = true) l -> filter p l = l.
Proof.
  induction 1 as [| x l Hx _ IH]; cbn [filter].
  - reflexivity.
  - now rewrite Hx, IH.
Qed.

Lemma strip_thousands (s : string) :
  Forall (fun c => not_comma c = true) (list_ascii_of_string s) ->
  strip_commas (thousands s) = s.
Proof.
  intros H. unfold strip_commas, thousands.
  rewrite list_ascii_of_string_of_list_ascii, filter_rev, group3_strip.
  rewrite <- filter_rev, rev_involutive, (filter_all _ _ H).
  apply string_of_list_ascii_of_string.
Qed.

(** Grouping only adds commas: dropping them gives the digits back, and
    there is one comma for every full group of three digits below the
    leading group. *)
Theorem thousands_commas (s : string) :
  Forall (fun c => not_comma c = true) (list_ascii_of_string s) ->
  strip_commas (thousands s) = s
  /\ String.length (thousands s)
     = (String.length s + (String.length s - 1) / 3)%nat.
Proof.
  intros H. split; [now apply strip_thousands |].
  assert (Hlen : forall t, String.length t
                           = List.length (list_ascii_of_string t)).
  { induction t as [| c t IH]; cbn; [reflexivity | now rewrite IH]. }
  rewrite !Hlen. unfold thousands.
  rewrite list_ascii_of_string_of_list_ascii, length_rev, group3_length.
  now rewrite length_rev.
Qed.

Lemma thousands_commas_witness :
  strip_commas (thousands "1234567") = "1234567"%string
  /\ String.length (thousands "1234567") = 9%nat.
Proof.
  apply (thousands_commas "1234567").
  repeat constructor.
Defined.

(** ** Payback within a year *)

(** With a platform cost above 1, the returned payback is at most 12
    months exactly when the returned ROI is at least 1. *)
Theorem payback_within_year (A L M G P : Q) :
  1 < P ->
  returns (compute_roi A L M G P)
    (fun r =>
       exists ro pb,
         dict_get "ROI (Savings / Platform)" r = Some ro
         /\ dict_get "Payback (months)" r = Some pb
         /\ (pb <= 12 <-> 1 <= ro)).
Proof.
  intros HP. returned A L M G P. eexists _, _.
  split; [reflexivity |]. split; [reflexivity |].
  cbn [payback_months roi].
  assert (Ht : truthy P = true) by (apply truthy_iff; lra).
  assert (Hl : Qlt_bool 0 P = true) by (apply Qlt_bool_iff; lra).
  rewrite Ht, Hl.
  set (s := A - (A * L - A * L * M + A * (1 - L) + P)).
  assert (E2 : s / P * P == s) by (field; lra).
  destruct (Qlt_le_dec s 1) as [Hs | Hs].
  - rewrite (py_max_clamped s 1) by lra.
    assert (E1 : P / 1 == P) by field.
    assert (Hr : s / P < 1).
    { apply Qlt_shift_div_r; lra. }
    split; intros H; lra.
  - rewrite (py_max_free s 1 Hs).
    assert (E1 : P / s * s == P) by (field; lra).
    split; intros H.
    + apply Qle_shift_div_l; [lra |].
      assert (Hq : P / s <= 1) by lra.
      assert (Hm : P / s * s <= 1 * s)
        by (apply Qmult_le_compat_r; lra).
      lra.
    + assert (Hm : 1 * P <= s / P * P)
        by (apply Qmult_le_compat_r; lra).
      assert (Hq : P / s <= 1).
      { apply Qle_shift_div_r; lra. }
      lra.
Qed.

Lemma payback_within_year_witness :
  returns (compute_roi 5000000 0.8 0.3 0.25 600000)
    (fun r => exists ro pb,
         dict_get "ROI (Savings / Platform)" r = Some ro
         /\ dict_get "Payback (months)" r = Some pb
         /\ pb <= 12 /\ 1 <= ro).
Proof.
  destruct (payback_within_year 5000000 0.8 0.3 0.25 600000)
    as (r & Hr & ro & pb & Hro & Hpb & H); [reflexivity |].
  exists r. split; [exact Hr |]. exists ro, pb.
  split; [exact Hro | split; [exact Hpb |]].
  assert (Hge : 1 <= ro).
  { vm_compute in Hr. injection Hr as <-. cbn in Hro.
    injection Hro as <-. vm_compute. discriminate. }
  split; [apply H; exact Hge | exact Hge].
Defined.
